(** * Fire TV media player: the command gate and the state inference engine

    A shallow embedding of [media_player/firetv.py]: the throttled decorator
    factory [adb_command], the guard [_adb_command] it builds, the polling
    cycle [FireTVDevice.async_update] and the action methods of
    [FireTVDevice].

    Python values are a small universe [pyval]; strings are sequences of
    Unicode code points.  The code mutates the device object, reads the wall
    clock and raises exceptions, so it is written in a monad [M] that threads
    a [World] (device fields, clock, throttle slot), keeps the effects made
    before an exception is raised, and records what the run did as a list of
    [event]s.  Everything the external [firetv] / [adb] packages and the
    device answer is an [Env]: one response per underlying operation. *)

From Stdlib Require Import ZArith NArith List String Ascii Bool Lia.
From Stdlib Require Decimal DecimalString.
Import ListNotations.
Local Open Scope Z_scope.
Set Warnings "-register-all".

(* ===================================================================== *)
(** ** Python values *)
(* ===================================================================== *)

Module Py.

(** A [str] is a sequence of code points. *)
Definition pystr := list N.

(** The literal [s] as a [str] (code points of an ASCII literal). *)
Definition str (s : string) : pystr :=
  map N_of_ascii (list_ascii_of_string s).

Fixpoint str_eqb (a b : pystr) : bool :=
  match a, b with
  | [], [] => true
  | x :: a', y :: b' => (x =? y)%N && str_eqb a' b'
  | _, _ => false
  end.

Inductive pyval : Type :=
| VNone
| VBool (b : bool)
| VInt (z : Z)
| VStr (s : pystr)
| VList (l : list pyval)
| VDict (d : list (pyval * pyval)).

(** [bool(v)]: the truth value Python's [if] and [not] test. *)
Definition truthy (v : pyval) : bool :=
  match v with
  | VNone => false
  | VBool b => b
  | VInt z => negb (z =? 0)
  | VStr s => match s with [] => false | _ => true end
  | VList l => match l with [] => false | _ => true end
  | VDict d => match d with [] => false | _ => true end
  end.

(** [v == s] for a [str] s: only a [str] with the same code points. *)
Definition eq_str (v : pyval) (s : pystr) : bool :=
  match v with VStr s' => str_eqb s' s | _ => false end.

(** [v in [s1, s2, ...]] for a list of [str]. *)
Definition in_strs (v : pyval) (l : list pystr) : bool :=
  existsb (eq_str v) l.

(** [d[k]] for a [str] key, [None] here when the key is missing, so
    [k in d] is [dict_get d k <> None]. *)
Fixpoint dict_get (d : list (pyval * pyval)) (k : pystr) : option pyval :=
  match d with
  | [] => None
  | (k', v) :: d' => if eq_str k' k then Some v else dict_get d' k
  end.

(** [str.isspace] of one code point, the white space [str.lstrip()]
    removes. *)
Definition isspace (c : N) : bool :=
  (((9 <=? c) && (c <=? 13)) || ((28 <=? c) && (c <=? 32))
   || (c =? 133) || (c =? 160) || (c =? 5760)
   || ((8192 <=? c) && (c <=? 8202))
   || (c =? 8232) || (c =? 8233) || (c =? 8239) || (c =? 8287)
   || (c =? 12288))%N.

(** [s.lstrip()]. *)
Fixpoint lstrip (s : pystr) : pystr :=
  match s with
  | [] => []
  | c :: s' => if isspace c then lstrip s' else s
  end.

(** [s.startswith('!')]. *)
Definition startswith_bang (s : pystr) : bool :=
  match s with
  | c :: _ => (c =? 33)%N
  | [] => false
  end.

(** [s[1:]]. *)
Definition slice_from_1 (s : pystr) : pystr := tl s.

End Py.
Import Py.

(* ===================================================================== *)
(** ** Exceptions *)
(* ===================================================================== *)

Inductive exn_class : Type :=
| TypeError
| ValueError
| AttributeError
| BrokenPipeError
| InvalidCommandError
| InvalidResponseError
| InvalidChecksumError
| OtherClass (name : string).

Definition exn_class_eqb (a b : exn_class) : bool :=
  match a, b with
  | TypeError, TypeError
  | ValueError, ValueError
  | AttributeError, AttributeError
  | BrokenPipeError, BrokenPipeError
  | InvalidCommandError, InvalidCommandError
  | InvalidResponseError, InvalidResponseError
  | InvalidChecksumError, InvalidChecksumError => true
  | OtherClass n, OtherClass m => String.eqb n m
  | _, _ => false
  end.

(** A raised exception: its class and that class's proper ancestors. *)
Record exn : Type := Exn { exn_type : exn_class; exn_bases : list exn_class }.

(** [isinstance(e, c)]. *)
Definition isinstance (e : exn) (c : exn_class) : bool :=
  exn_class_eqb (exn_type e) c || existsb (fun b => exn_class_eqb b c) (exn_bases e).

(** [except classes:] matches [e]. *)
Definition caught_by (classes : list exn_class) (e : exn) : bool :=
  existsb (isinstance e) classes.

(** The [TypeError] the interpreter raises itself (calling [None], a wrong
    number of arguments, ...). *)
Definition type_error : exn :=
  Exn TypeError [OtherClass "Exception"; OtherClass "BaseException"].

(** [self._exceptions], set once in [__init__]. *)
Definition _exceptions : list exn_class :=
  [TypeError; ValueError; AttributeError; BrokenPipeError;
   InvalidCommandError; InvalidResponseError; InvalidChecksumError].

(* ===================================================================== *)
(** ** Constants *)
(* ===================================================================== *)

Inductive State : Type :=
| STATE_IDLE | STATE_OFF | STATE_PAUSED | STATE_PLAYING | STATE_STANDBY
| STATE_UNKNOWN.

Definition PACKAGE_LAUNCHER : pystr := str "com.amazon.tv.launcher".
Definition PACKAGE_SETTINGS : pystr := str "com.amazon.tv.settings".

(** Times are microseconds, the resolution of [datetime]. *)
Definition MIN_TIME : Z := 10000.     (* timedelta(milliseconds=10) *)
Definition SLEEP_TIME : Z := 100000.  (* 0.1 seconds *)

(* ===================================================================== *)
(** ** The device object and the world around it *)
(* ===================================================================== *)

(** The ADB connection object held in [self._firetv._adb]. *)
Inductive Handle : Type := AdbCommands (id : nat).

Record FireTVDevice : Type := {
  _host : pystr;
  _adbkey : pystr;
  _firetv_adb : option Handle;      (* self._firetv._adb *)
  _adb_lock : bool;
  _name : pystr;
  _state : State;
  _running_apps : pyval;
  _current_app : pyval;
  _get_source : bool;
  _get_sources : bool
}.

Definition with_adb (h : option Handle) (d : FireTVDevice) : FireTVDevice :=
  {| _host := _host d; _adbkey := _adbkey d; _firetv_adb := h;
     _adb_lock := _adb_lock d; _name := _name d; _state := _state d;
     _running_apps := _running_apps d; _current_app := _current_app d;
     _get_source := _get_source d; _get_sources := _get_sources d |}.

Definition with_state (s : State) (d : FireTVDevice) : FireTVDevice :=
  {| _host := _host d; _adbkey := _adbkey d; _firetv_adb := _firetv_adb d;
     _adb_lock := _adb_lock d; _name := _name d; _state := s;
     _running_apps := _running_apps d; _current_app := _current_app d;
     _get_source := _get_source d; _get_sources := _get_sources d |}.

Definition with_running_apps (v : pyval) (d : FireTVDevice) : FireTVDevice :=
  {| _host := _host d; _adbkey := _adbkey d; _firetv_adb := _firetv_adb d;
     _adb_lock := _adb_lock d; _name := _name d; _state := _state d;
     _running_apps := v; _current_app := _current_app d;
     _get_source := _get_source d; _get_sources := _get_sources d |}.

Definition with_current_app (v : pyval) (d : FireTVDevice) : FireTVDevice :=
  {| _host := _host d; _adbkey := _adbkey d; _firetv_adb := _firetv_adb d;
     _adb_lock := _adb_lock d; _name := _name d; _state := _state d;
     _running_apps := _running_apps d; _current_app := v;
     _get_source := _get_source d; _get_sources := _get_sources d |}.

(** [FireTVDevice.__init__]; [adb] is the handle [FireTV(host, adbkey)]
    came back with. *)
Definition __init__ (host name adbkey : pystr) (get_source get_sources : bool)
    (adb : option Handle) : FireTVDevice :=
  {| _host := host; _adbkey := adbkey; _firetv_adb := adb;
     _adb_lock := false; _name := name; _state := STATE_UNKNOWN;
     _running_apps := VNone; _current_app := VNone;
     _get_source := get_source; _get_sources := get_sources |}.

(** The properties the hub reads. *)
Definition state (d : FireTVDevice) : State := _state d.
Definition source (d : FireTVDevice) : pyval := _current_app d.
Definition source_list (d : FireTVDevice) : pyval := _running_apps d.

(** The device, the wall clock [utcnow()] and the one throttle slot of the
    module-level function [adb_command] (the time of its last run). *)
Record World : Type := {
  self : FireTVDevice;
  utcnow : Z;
  last_run : option Z
}.

Definition on_self (f : FireTVDevice -> FireTVDevice) (w : World) : World :=
  {| self := f (self w); utcnow := utcnow w; last_run := last_run w |}.

Definition advance (d : Z) (w : World) : World :=
  {| self := self w; utcnow := utcnow w + d; last_run := last_run w |}.

Definition mark_run (w : World) : World :=
  {| self := self w; utcnow := utcnow w; last_run := Some (utcnow w) |}.

(* ===================================================================== *)
(** ** What the code talks to *)
(* ===================================================================== *)

(** The four attribute names the polling cycle reads with
    [is_property=True]. *)
Inductive attr : Type := _screen_on | _awake | current_app | _wake_lock.

(** The methods of [FireTVDevice] that carry the [@adb_command] decorator,
    in the order of the class body. *)
Inductive action : Type :=
| turn_on | turn_off | media_play | media_pause | media_play_pause
| media_stop | volume_up | volume_down | media_previous_track
| media_next_track | select_source.

(** What [adb_command] is given as [command]: an attribute name, one of the
    two functions taken from [type(self._firetv)], or a function defined in
    the class body. *)
Inductive command : Type :=
| Name (a : attr)
| Unbound_connect
| Unbound_running_apps
| Def (m : action).

(** The underlying operations: what leaves this file for the [firetv]
    package and the device. *)
Inductive operation : Type :=
| getattr_self (a : attr)          (* getattr(self, name) *)
| connect                          (* FireTV.connect *)
| running_apps                     (* FireTV.running_apps *)
| firetv_turn_on | firetv_turn_off
| firetv_media_play | firetv_media_pause | firetv_media_play_pause
| firetv_back
| firetv_volume_up | firetv_volume_down
| firetv_media_previous | firetv_media_next
| firetv_launch_app (app : pystr)
| firetv_stop_app (app : pystr).

Inductive response : Type := Returns (v : pyval) | Raises (e : exn).

(** The environment of one polling cycle or one action: how each underlying
    operation answers, and the handle [self._firetv._adb] holds once
    [connect] has returned. *)
Record Env : Type := {
  respond : operation -> response;
  adb_after_connect : option Handle
}.

(** What a run did, in order. *)
Inductive event : Type :=
| Requested (c : command) (is_property : bool)  (* adb_command(c, ...) called *)
| Invoked (op : operation)                      (* an underlying operation ran *)
| LoggedError                                   (* _LOGGER.error(...) *)
| Returned (c : command) (v : pyval).           (* the guard of c returned v *)

(* ===================================================================== *)
(** ** The monad of the code: state, exceptions, events *)
(* ===================================================================== *)

Inductive outcome (A : Type) : Type :=
| Ok (a : A)
| Raise (e : exn).
Arguments Ok {A} a.
Arguments Raise {A} e.

Record run (A : Type) : Type := Run {
  result : outcome A;
  world : World;
  events : list event
}.
Arguments Run {A} result world events.
Arguments result {A} r.
Arguments world {A} r.
Arguments events {A} r.

Definition M (A : Type) : Type := World -> run A.

Definition ret {A} (a : A) : M A := fun w => Run (Ok a) w [].

Definition bind {A B} (m : M A) (f : A -> M B) : M B := fun w =>
  match m w with
  | Run (Ok a) w1 ev1 =>
      match f a w1 with
      | Run r w2 ev2 => Run r w2 (ev1 ++ ev2)
      end
  | Run (Raise e) w1 ev1 => Run (Raise e) w1 ev1
  end.

Definition raise {A} (e : exn) : M A := fun w => Run (Raise e) w [].

(** [try: body  except classes: handler]. *)
Definition try_except {A} (body : M A) (classes : list exn_class)
    (handler : M A) : M A := fun w =>
  match body w with
  | Run (Ok a) w1 ev1 => Run (Ok a) w1 ev1
  | Run (Raise e) w1 ev1 =>
      if caught_by classes e then
        match handler w1 with
        | Run r w2 ev2 => Run r w2 (ev1 ++ ev2)
        end
      else Run (Raise e) w1 ev1
  end.

Definition emit (e : event) : M unit := fun w => Run (Ok tt) w [e].

Definition modify (f : FireTVDevice -> FireTVDevice) : M unit :=
  fun w => Run (Ok tt) (on_self f w) [].

Definition read {A} (f : FireTVDevice -> A) : M A :=
  fun w => Run (Ok (f (self w))) w [].

Declare Scope py_scope.
Delimit Scope py_scope with py.
Notation "x <- m ;; k" := (bind m (fun x => k))
  (at level 61, m at next level, right associativity) : py_scope.
Notation "m ;; k" := (bind m (fun _ => k))
  (at level 61, right associativity) : py_scope.
Local Open Scope py_scope.

(** [await asyncio.sleep(delay)]: the task resumes [delay] later; no other
    task is interleaved in this model. *)
Definition asyncio_sleep (delay : Z) : M unit :=
  fun w => Run (Ok tt) (advance delay w) [].

(** An underlying operation: it answers as the environment says. *)
Definition extern (env : Env) (op : operation) : M pyval := fun w =>
  match respond env op with
  | Returns v => Run (Ok v) w [Invoked op]
  | Raises e => Run (Raise e) w [Invoked op]
  end.

(* ===================================================================== *)
(** ** homeassistant.util.Throttle *)
(* ===================================================================== *)

(** [Throttle(min_time)(method)], imported from the hub's library.  As the
    library documents it, the decorated function runs when it never ran
    before or when more than [min_time] has passed since its last run, and
    the time of the run is then stored; a call inside the interval does not
    run the function and returns [None].  The slot belongs to the decorated
    function: here the module-level [adb_command], whatever its arguments.
    The lock the library takes around the call is never contended in a
    sequential run and is left out; the clock is read once per call. *)
Definition throttle_admits (min_time : Z) (w : World) : bool :=
  match last_run w with
  | None => true
  | Some t => utcnow w - t >? min_time
  end.

Definition Throttle (min_time : Z) {A} (method : M A) : M (option A) := fun w =>
  if throttle_admits min_time w then
    match method w with
    | Run (Ok a) w1 ev1 => Run (Ok (Some a)) (mark_run w1) ev1
    | Run (Raise e) w1 ev1 => Run (Raise e) w1 ev1
    end
  else Run (Ok None) w [].

(* ===================================================================== *)
(** ** The command gate *)
(* ===================================================================== *)

(** A Python callable of this file: the closure [_adb_command]. *)
Definition callable : Type := Env -> list pyval -> M pyval.

(** Calling the value [f]: [None] is not callable. *)
Definition call (f : option callable) (env : Env) (args : list pyval) : M pyval :=
  match f with
  | Some g => g env args
  | None => raise type_error
  end.

(** [FireTV.connect], reached as [type(self._firetv).connect]. *)
Definition FireTV_connect (env : Env) : M pyval :=
  v <- extern env connect ;;
  modify (with_adb (adb_after_connect env)) ;;
  ret v.

(** One action of [self._firetv], called for its effect. *)
Definition firetv (env : Env) (op : operation) : M pyval :=
  extern env op ;; ret VNone.

(** The bodies of the decorated methods. *)
Definition def_select_source (env : Env) (source : pyval) : M pyval :=
  match source with
  | VStr s =>
      if negb (startswith_bang s) then firetv env (firetv_launch_app s)
      else firetv env (firetv_stop_app (lstrip (slice_from_1 s)))
  | _ => ret VNone
  end.

Definition def (m : action) (env : Env) (args : list pyval) : M pyval :=
  match m, args with
  | turn_on, [] => firetv env firetv_turn_on
  | turn_off, [] => firetv env firetv_turn_off
  | media_play, [] => firetv env firetv_media_play
  | media_pause, [] => firetv env firetv_media_pause
  | media_play_pause, [] => firetv env firetv_media_play_pause
  | media_stop, [] => firetv env firetv_back
  | volume_up, [] => firetv env firetv_volume_up
  | volume_down, [] => firetv env firetv_volume_down
  | media_previous_track, [] => firetv env firetv_media_previous
  | media_next_track, [] => firetv env firetv_media_next
  | select_source, [source] => def_select_source env source
  | _, _ => raise type_error     (* wrong number of arguments *)
  end.

(** [getattr(self, command)]: the name must be a string. *)
Definition py_getattr (env : Env) (c : command) : M pyval :=
  match c with
  | Name a => extern env (getattr_self a)
  | _ => raise type_error
  end.

(** [command(self, *args)]: a string is not callable. *)
Definition py_apply (env : Env) (c : command) (args : list pyval) : M pyval :=
  match c with
  | Name _ => raise type_error
  | Unbound_connect =>
      match args with [] => FireTV_connect env | _ => raise type_error end
  | Unbound_running_apps =>
      match args with [] => extern env running_apps | _ => raise type_error end
  | Def m => def m env args
  end.

(** The body of the [try]: the command is a property or a method. *)
Definition run_command (c : command) (is_property : bool) (env : Env)
    (args : list pyval) : M pyval :=
  if is_property then py_getattr env c else py_apply env c args.

(** The closure [_adb_command] built for [command] and [is_property]. *)
Definition _adb_command (c : command) (is_property : bool) : callable :=
  fun env args =>
    returns <- try_except
                 (run_command c is_property env args)
                 _exceptions
                 (emit LoggedError ;;
                  modify (with_adb None) ;;
                  ret VNone) ;;
    emit (Returned c returns) ;;
    ret returns.

(** [adb_command] as the module binds it: the factory under
    [@Throttle(MIN_TIME)]. *)
Definition adb_command (c : command) (is_property : bool) : M (option callable) :=
  emit (Requested c is_property) ;;
  Throttle MIN_TIME (ret (_adb_command c is_property)).

(** [adb_command(c, is_property)(self, *args)], a guarded invocation. *)
Definition guarded (env : Env) (c : command) (is_property : bool)
    (args : list pyval) : M pyval :=
  f <- adb_command c is_property ;;
  call f env args.

(* ===================================================================== *)
(** ** The state inference engine *)
(* ===================================================================== *)

(** The identifier taken from what [current_app] read: the ['package']
    entry of a dict that has one, else the value itself. *)
Definition package_of (current : pyval) : pyval :=
  match current with
  | VDict d =>
      match dict_get d (str "package") with
      | Some v => v
      | None => current
      end
  | _ => current
  end.

(** [FireTVDevice.async_update]: one polling cycle. *)
Definition async_update (env : Env) : M unit :=
  adb <- read _firetv_adb ;;
  match adb with
  | None =>
      (* Check if device is disconnected. *)
      modify (with_state STATE_UNKNOWN) ;;
      modify (with_running_apps VNone) ;;
      modify (with_current_app VNone) ;;
      (* Try to connect *)
      guarded env Unbound_connect false [] ;;
      asyncio_sleep SLEEP_TIME
  | Some _ =>
      (* Check if device is off. *)
      screen_on <- guarded env (Name _screen_on) true [] ;;
      if negb (truthy screen_on) then
        asyncio_sleep SLEEP_TIME ;;
        modify (with_state STATE_OFF) ;;
        modify (with_running_apps VNone) ;;
        modify (with_current_app VNone)
      else
        asyncio_sleep SLEEP_TIME ;;
        (* Check if screen saver is on. *)
        awake <- guarded env (Name _awake) true [] ;;
        if negb (truthy awake) then
          asyncio_sleep SLEEP_TIME ;;
          modify (with_state STATE_IDLE) ;;
          modify (with_running_apps VNone) ;;
          modify (with_current_app VNone)
        else
          asyncio_sleep SLEEP_TIME ;;
          (* Get the running apps. *)
          get_sources <- read _get_sources ;;
          (if get_sources then
             apps <- guarded env Unbound_running_apps false [] ;;
             modify (with_running_apps apps) ;;
             asyncio_sleep SLEEP_TIME
           else ret tt) ;;
          (* Get the current app. *)
          get_source <- read _get_source ;;
          if get_source then
            current <- guarded env (Name current_app) true [] ;;
            asyncio_sleep SLEEP_TIME ;;
            modify (with_current_app (package_of current)) ;;
            (* Show the current app as the only running app. *)
            get_sources <- read _get_sources ;;
            (if negb get_sources then
               app <- read _current_app ;;
               if truthy app then modify (with_running_apps (VList [app]))
               else modify (with_running_apps VNone)
             else ret tt) ;;
            app <- read _current_app ;;
            (if in_strs app [PACKAGE_LAUNCHER; PACKAGE_SETTINGS] then
               (* Check if the launcher is active. *)
               modify (with_state STATE_STANDBY)
             else
               (* Check for a wake lock (device is playing). *)
               wake_lock <- guarded env (Name _wake_lock) true [] ;;
               if truthy wake_lock then modify (with_state STATE_PLAYING)
               else modify (with_state STATE_PAUSED)) ;;
            asyncio_sleep SLEEP_TIME
          else
            (* Don't get the current app. *)
            wake_lock <- guarded env (Name _wake_lock) true [] ;;
            (if truthy wake_lock then modify (with_state STATE_PLAYING)
             else modify (with_state STATE_STANDBY)) ;;
            asyncio_sleep SLEEP_TIME
  end.

(* ===================================================================== *)
(** ** The class body: the decorated methods *)
(* ===================================================================== *)

(** What the class binds each decorated name to: the value [adb_command]
    returned when the class body ran. *)
Definition methods : Type := action -> option callable.

Definition action_eqb (a b : action) : bool :=
  match a, b with
  | turn_on, turn_on | turn_off, turn_off | media_play, media_play
  | media_pause, media_pause | media_play_pause, media_play_pause
  | media_stop, media_stop | volume_up, volume_up
  | volume_down, volume_down
  | media_previous_track, media_previous_track
  | media_next_track, media_next_track
  | select_source, select_source => true
  | _, _ => false
  end.

Definition bind_name (m : action) (f : option callable) (cls : methods) : methods :=
  fun m' => if action_eqb m m' then f else cls m'.

Definition decorated : list action :=
  [turn_on; turn_off; media_play; media_pause; media_play_pause; media_stop;
   volume_up; volume_down; media_previous_track; media_next_track;
   select_source].

(** The [@adb_command] lines of the class body, run in order; [elapsed m] is
    the time that passes before the decorator of [m] runs. *)
Fixpoint class_body (defs : list action) (elapsed : action -> Z)
    (cls : methods) : M methods :=
  match defs with
  | [] => ret cls
  | m :: rest =>
      asyncio_sleep (elapsed m) ;;
      f <- adb_command (Def m) false ;;
      class_body rest elapsed (bind_name m f cls)
  end.

(** The call [self.m(args...)] on a device of the class [cls]. *)
Definition invoke (cls : methods) (m : action) (env : Env)
    (args : list pyval) : M pyval :=
  call (cls m) env args.

(* ===================================================================== *)
(** ** Histories: polling cycles and actions in any order *)
(* ===================================================================== *)

Inductive step : Type :=
| Poll (env : Env)
| Act (m : action) (env : Env) (args : list pyval)
| Wait (d : Z).

Definition do_step (cls : methods) (s : step) (w : World) : World :=
  match s with
  | Poll env => world (async_update env w)
  | Act m env args => world (invoke cls m env args w)
  | Wait d => advance d w
  end.

Definition do_steps (cls : methods) (l : list step) (w : World) : World :=
  fold_left (fun w s => do_step cls s w) l w.

(** Projections of a run. *)
Definition requests (ev : list event) : list command :=
  flat_map (fun e => match e with Requested c _ => [c] | _ => [] end) ev.

Definition invoked (ev : list event) : list operation :=
  flat_map (fun e => match e with Invoked op => [op] | _ => [] end) ev.

Definition errors_logged (ev : list event) : nat :=
  List.length (filter (fun e => match e with LoggedError => true | _ => false end) ev).

Definition attr_eqb (a b : attr) : bool :=
  match a, b with
  | _screen_on, _screen_on | _awake, _awake | current_app, current_app
  | _wake_lock, _wake_lock => true
  | _, _ => false
  end.

Definition command_eqb (a b : command) : bool :=
  match a, b with
  | Name x, Name y => attr_eqb x y
  | Unbound_connect, Unbound_connect => true
  | Unbound_running_apps, Unbound_running_apps => true
  | Def m, Def m' => action_eqb m m'
  | _, _ => false
  end.

(** The values the guard of [c] returned during the run, in order. *)
Definition returned (ev : list event) (c : command) : list pyval :=
  flat_map (fun e => match e with
                     | Returned c' v => if command_eqb c' c then [v] else []
                     | _ => []
                     end) ev.

(** The guard of [c] returned [v] during the run: "[c] reads [v]". *)
Definition reads (ev : list event) (c : command) (v : pyval) : Prop :=
  In v (returned ev c).

(** The class as the class body leaves it, started in the world [wc]. *)
Definition FireTVDevice_class (elapsed : action -> Z) (wc : World) : methods :=
  match result (class_body decorated elapsed (fun _ => None) wc) with
  | Ok cls => cls
  | Raise _ => fun _ => None
  end.

(** Every decorated name is bound to [None] or to the guard of its body. *)
Definition well_bound (cls : methods) : Prop :=
  forall m, cls m = None \/ cls m = Some (_adb_command (Def m) false).

(* ===================================================================== *)
(** ** Sample devices and environments *)
(* ===================================================================== *)

Module Sample.

Definition netflix : pystr := str "com.netflix.ninja".

(** A device built by [__init__] with the two toggles as given. *)
Definition device (get_source get_sources : bool) (adb : option Handle) : FireTVDevice :=
  __init__ (str "192.168.0.10:5555") (str "Amazon Fire TV") [] get_source get_sources adb.

(** A world in which [adb_command] never ran. *)
Definition fresh (d : FireTVDevice) : World :=
  {| self := d; utcnow := 0; last_run := None |}.

(** An environment given by what the five reads answer. *)
Definition answers (screen_on awake apps current wake_lock : response) : Env :=
  {| respond := fun op =>
       match op with
       | getattr_self _screen_on => screen_on
       | getattr_self _awake => awake
       | running_apps => apps
       | getattr_self current_app => current
       | getattr_self _wake_lock => wake_lock
       | _ => Returns VNone
       end;
     adb_after_connect := Some (AdbCommands 2) |}.

Definition yes : response := Returns (VBool true).
Definition no : response := Returns (VBool false).
Definition app (s : pystr) : response :=
  Returns (VDict [(VStr (str "package"), VStr s); (VStr (str "pid"), VInt 4321)]).
Definition no_apps : response := Returns (VList []).

Definition broken_pipe : exn :=
  Exn BrokenPipeError
      [OtherClass "ConnectionError"; OtherClass "OSError";
       OtherClass "Exception"; OtherClass "BaseException"].

Definition timeout : exn :=
  Exn (OtherClass "socket.timeout")
      [OtherClass "OSError"; OtherClass "Exception"; OtherClass "BaseException"].

(** Every decorator of the class body runs 20 ms after the one before. *)
Definition slow_import : action -> Z := fun _ => 20000.

(** Every decorator of the class body runs 1 us after the one before. *)
Definition fast_import : action -> Z := fun _ => 1.

End Sample.

(* ===================================================================== *)
(** ** The probes a cycle can make, in order *)
(* ===================================================================== *)

(** The guarded invocations written in [async_update] for a device, in the
    order of the source, when no branch returns early. *)
Definition probe_plan (d : FireTVDevice) : list command :=
  match _firetv_adb d with
  | None => [Unbound_connect]
  | Some _ =>
      [Name _screen_on; Name _awake]
      ++ (if _get_sources d then [Unbound_running_apps] else [])
      ++ (if _get_source d then [Name current_app; Name _wake_lock]
          else [Name _wake_lock])
  end.

(** The states a cycle can leave behind. *)
Definition connected_states (get_source : bool) : list State :=
  [STATE_OFF; STATE_IDLE; STATE_STANDBY; STATE_PLAYING]
  ++ (if get_source then [STATE_PAUSED] else []).

(** The single-element shape of the source list: absent, or exactly the
    current app, which is then truthy. *)
Definition single_source (d : FireTVDevice) : Prop :=
  _running_apps d = VNone \/
  (_running_apps d = VList [_current_app d] /\ truthy (_current_app d) = true).

(* ===================================================================== *)
(** ** Supported features *)
(* ===================================================================== *)

(** The feature flags imported from the media player component; their
    values are the component's. *)
Record Flags : Type := {
  SUPPORT_PAUSE : Z;
  SUPPORT_TURN_ON : Z;
  SUPPORT_TURN_OFF : Z;
  SUPPORT_PREVIOUS_TRACK : Z;
  SUPPORT_NEXT_TRACK : Z;
  SUPPORT_SELECT_SOURCE : Z;
  SUPPORT_STOP : Z;
  SUPPORT_VOLUME_SET : Z;
  SUPPORT_PLAY : Z
}.

Definition SUPPORT_FIRETV (f : Flags) : Z :=
  Z.lor (Z.lor (Z.lor (Z.lor (Z.lor (Z.lor (Z.lor (Z.lor
    (SUPPORT_PAUSE f)
    (SUPPORT_TURN_ON f)) (SUPPORT_TURN_OFF f)) (SUPPORT_PREVIOUS_TRACK f))
    (SUPPORT_NEXT_TRACK f)) (SUPPORT_SELECT_SOURCE f)) (SUPPORT_STOP f))
    (SUPPORT_VOLUME_SET f)) (SUPPORT_PLAY f).

(** The property [supported_features]. *)
Definition supported_features (f : Flags) (d : FireTVDevice) : Z :=
  SUPPORT_FIRETV f.

Definition listed_flags (f : Flags) : list Z :=
  [SUPPORT_PAUSE f; SUPPORT_TURN_ON f; SUPPORT_TURN_OFF f;
   SUPPORT_PREVIOUS_TRACK f; SUPPORT_NEXT_TRACK f; SUPPORT_SELECT_SOURCE f;
   SUPPORT_STOP f; SUPPORT_VOLUME_SET f; SUPPORT_PLAY f].

(* ===================================================================== *)
(** ** Platform setup *)
(* ===================================================================== *)

(** The validated platform configuration, one field per key of
    [PLATFORM_SCHEMA]. *)
Record Config : Type := {
  CONF_HOST : pystr;
  CONF_PORT : Z;
  CONF_NAME : pystr;
  CONF_ADBKEY : pystr;
  CONF_GET_SOURCE : bool;
  CONF_GET_SOURCES : bool
}.

Definition DEFAULT_NAME : pystr := str "Amazon Fire TV".
Definition DEFAULT_PORT : Z := 5555.
Definition DEFAULT_ADBKEY : pystr := [].
Definition DEFAULT_GET_SOURCE : bool := true.
Definition DEFAULT_GET_SOURCES : bool := true.

(** What constructing [FireTV(host, adbkey)] gives: the object with its
    handle, or an exception. *)
Inductive constructed : Type :=
| Built (adb : option Handle)
| Broke (e : exn).

(** What setup sees of the outside: the [firetv] constructor and the file
    system. *)
Record SetupEnv : Type := {
  FireTV : pystr -> pystr -> constructed;
  os_path_exists : pystr -> bool;
  open_raises : pystr -> option exn      (* open(path) failing *)
}.

Inductive setup_event : Type :=
| Warned (host adb_log : pystr)     (* _LOGGER.warning(..., host, adb_log) *)
| Informed (host adb_log : pystr)   (* _LOGGER.info(..., host, adb_log) *)
| Checked (path : pystr)            (* os.path.exists(path) *)
| Opened (path : pystr)             (* open(path) *)
| Added (devices : list FireTVDevice).  (* add_devices(devices) *)

Inductive setup_outcome : Type :=
| Done
| FileNotFoundError (message : pystr)
| Raised (e : exn).

(** [str(n)] of an [int]. *)
Definition format_int (n : Z) : pystr :=
  str (DecimalString.NilZero.string_of_int (Z.to_int n)).

(** The key-file checks of setup, made when the connection failed and a key
    was configured. *)
Definition troubleshoot_adbkey (env : SetupEnv) (adbkey : pystr)
    : setup_outcome * list setup_event :=
  (* Check whether the key files exist *)
  if negb (os_path_exists env adbkey) then
    (FileNotFoundError (str "ADB private key " ++ adbkey ++ str " does not exist"),
     [Checked adbkey])
  else if negb (os_path_exists env (adbkey ++ str ".pub")) then
    (FileNotFoundError
       (str "ADB public key " ++ (adbkey ++ str ".pub") ++ str " does not exist"),
     [Checked adbkey; Checked (adbkey ++ str ".pub")])
  else
    (* Check whether the key files can be read *)
    match open_raises env adbkey with
    | Some e =>
        (Raised e,
         [Checked adbkey; Checked (adbkey ++ str ".pub"); Opened adbkey])
    | None =>
        match open_raises env (adbkey ++ str ".pub") with
        | Some e =>
            (Raised e,
             [Checked adbkey; Checked (adbkey ++ str ".pub"); Opened adbkey;
              Opened (adbkey ++ str ".pub")])
        | None =>
            (Done,
             [Checked adbkey; Checked (adbkey ++ str ".pub"); Opened adbkey;
              Opened (adbkey ++ str ".pub")])
        end
    end.

(** [setup_platform(hass, config, add_devices)]. *)
Definition setup_platform (env : SetupEnv) (config : Config)
    : setup_outcome * list setup_event :=
  let host := CONF_HOST config ++ str ":" ++ format_int (CONF_PORT config) in
  let name := CONF_NAME config in
  let adbkey := CONF_ADBKEY config in
  let get_source := CONF_GET_SOURCE config in
  let get_sources := CONF_GET_SOURCES config in
  match FireTV env host adbkey with
  | Broke e => (Raised e, [])
  | Built adb =>
      let device := __init__ host name adbkey get_source get_sources adb in
      let adb_log :=
        match adbkey with
        | [] => []
        | _ => str " using adbkey='" ++ adbkey ++ str "'"
        end in
      match _firetv_adb device with
      | None =>
          match adbkey with
          | [] => (Done, [Warned host adb_log])
          | _ =>
              let (out, ev) := troubleshoot_adbkey env adbkey in
              (out, Warned host adb_log :: ev)
          end
      | Some _ => (Done, [Informed host adb_log; Added [device]])
      end
  end.

(** The host string handed to the device. *)
Definition host_of (config : Config) : pystr :=
  CONF_HOST config ++ str ":" ++ format_int (CONF_PORT config).

(** Projections of a setup run. *)
Definition added (ev : list setup_event) : list FireTVDevice :=
  flat_map (fun e => match e with Added l => l | _ => [] end) ev.

Definition touched (ev : list setup_event) : list pystr :=
  flat_map (fun e => match e with
                     | Checked p => [p]
                     | Opened p => [p]
                     | _ => []
                     end) ev.

Definition log_lines (ev : list setup_event) : nat :=
  List.length (filter (fun e => match e with
                                | Warned _ _ => true
                                | Informed _ _ => true
                                | _ => false
                                end) ev).

Module SampleSetup.

Definition key : pystr := str "/config/adbkey".

Definition config (adbkey : pystr) : Config :=
  {| CONF_HOST := str "192.168.0.10"; CONF_PORT := DEFAULT_PORT;
     CONF_NAME := DEFAULT_NAME; CONF_ADBKEY := adbkey;
     CONF_GET_SOURCE := DEFAULT_GET_SOURCE;
     CONF_GET_SOURCES := DEFAULT_GET_SOURCES |}.

(** The device does not answer; of the key pair only the listed files
    exist. *)
Definition unreachable (files : list pystr) : SetupEnv :=
  {| FireTV := fun _ _ => Built None;
     os_path_exists := fun p => existsb (str_eqb p) files;
     open_raises := fun _ => None |}.


End SampleSetup.

(* ===================================================================== *)
(** ** Calling conventions of the decorated methods *)
(* ===================================================================== *)

(** The number of arguments a decorated method takes besides [self]. *)
Definition arity (m : action) : nat :=
  match m with
  | select_source => 1
  | _ => 0
  end.

(** The time the class body takes over the decorators of [defs]. *)
Definition total_elapsed (elapsed : action -> Z) (defs : list action) : Z :=
  fold_right (fun m acc => elapsed m + acc) 0 defs.

(** The clock is not behind the last stamp of the throttle. *)
Definition clock_sane (w : World) : Prop :=
  match last_run w with
  | Some t => t <= utcnow w
  | None => True
  end.

(* ===================================================================== *)
(** ** Proof tools *)
(* ===================================================================== *)

(** Writing a device field moves neither the clock nor the throttle. *)
Lemma throttle_admits_on_self (t : Z) (f : FireTVDevice -> FireTVDevice) (w : World) :
  throttle_admits t (on_self f w) = throttle_admits t w.
Proof. reflexivity. Qed.

(** Case analysis on whatever the run is waiting for: the throttle, an
    answer of the environment, the class of an exception, a truth value, a
    toggle. *)
Ltac split_on b := destruct b eqn:?.

Ltac branch_goal :=
  match goal with
  | |- context [if throttle_admits ?t ?w then _ else _] => split_on (throttle_admits t w)
  | |- context [match respond ?env ?op with _ => _ end] => split_on (respond env op)
  | |- context [if caught_by ?cs ?e then _ else _] => split_on (caught_by cs e)
  | |- context [match ?args with [] => _ | _ :: _ => _ end] => is_var args; destruct args
  | |- context [match ?v with VStr _ => _ | _ => _ end] => is_var v; destruct v
  | |- context [if negb (startswith_bang ?s) then _ else _] => split_on (startswith_bang s)
  end;
  cbn [result world events self app negb].

Ltac branch_in E :=
  match type of E with
  | context [if throttle_admits ?t ?w then _ else _] => split_on (throttle_admits t w)
  | context [match respond ?env ?op with _ => _ end] => split_on (respond env op)
  | context [if caught_by ?cs ?e then _ else _] => split_on (caught_by cs e)
  | context [if negb (truthy ?v) then _ else _] => split_on (truthy v)
  | context [if truthy ?v then _ else _] => split_on (truthy v)
  | context [if negb (_get_sources ?d) then _ else _] => split_on (_get_sources d)
  | context [if _get_sources ?d then _ else _] => split_on (_get_sources d)
  | context [if _get_source ?d then _ else _] => split_on (_get_source d)
  | context [if in_strs ?a ?l then _ else _] => split_on (in_strs a l)
  | context [match _firetv_adb ?d with Some _ => _ | None => _ end] =>
      split_on (_firetv_adb d)
  end.

Ltac unfold_gate :=
  unfold guarded, adb_command, Throttle, call, _adb_command, try_except,
    run_command, py_getattr, py_apply, FireTV_connect, firetv, extern,
    bind, ret, raise, emit, modify, read;
  cbn [result world events self app];
  rewrite ?throttle_admits_on_self.

(** A guarded read of the attribute [a], case by case. *)
Lemma guarded_read (env : Env) (a : attr) (w : World) :
  guarded env (Name a) true [] w =
  if throttle_admits MIN_TIME w then
    match respond env (getattr_self a) with
    | Returns v =>
        Run (Ok v) (mark_run w)
          [Requested (Name a) true; Invoked (getattr_self a);
           Returned (Name a) v]
    | Raises e =>
        if caught_by _exceptions e then
          Run (Ok VNone) (on_self (with_adb None) (mark_run w))
            [Requested (Name a) true; Invoked (getattr_self a);
             LoggedError; Returned (Name a) VNone]
        else
          Run (Raise e) (mark_run w)
            [Requested (Name a) true; Invoked (getattr_self a)]
    end
  else Run (Raise type_error) w [Requested (Name a) true].
Proof.
  unfold_gate. repeat branch_goal; reflexivity.
Qed.

(** The guarded call of [running_apps]. *)
Lemma guarded_running_apps (env : Env) (w : World) :
  guarded env Unbound_running_apps false [] w =
  if throttle_admits MIN_TIME w then
    match respond env running_apps with
    | Returns v =>
        Run (Ok v) (mark_run w)
          [Requested Unbound_running_apps false; Invoked running_apps;
           Returned Unbound_running_apps v]
    | Raises e =>
        if caught_by _exceptions e then
          Run (Ok VNone) (on_self (with_adb None) (mark_run w))
            [Requested Unbound_running_apps false; Invoked running_apps;
             LoggedError; Returned Unbound_running_apps VNone]
        else
          Run (Raise e) (mark_run w)
            [Requested Unbound_running_apps false; Invoked running_apps]
    end
  else Run (Raise type_error) w [Requested Unbound_running_apps false].
Proof.
  unfold_gate. repeat branch_goal; reflexivity.
Qed.

(** The guarded call of [connect]. *)
Lemma guarded_connect (env : Env) (w : World) :
  guarded env Unbound_connect false [] w =
  if throttle_admits MIN_TIME w then
    match respond env connect with
    | Returns v =>
        Run (Ok v) (on_self (with_adb (adb_after_connect env)) (mark_run w))
          [Requested Unbound_connect false; Invoked connect;
           Returned Unbound_connect v]
    | Raises e =>
        if caught_by _exceptions e then
          Run (Ok VNone) (on_self (with_adb None) (mark_run w))
            [Requested Unbound_connect false; Invoked connect;
             LoggedError; Returned Unbound_connect VNone]
        else
          Run (Raise e) (mark_run w)
            [Requested Unbound_connect false; Invoked connect]
    end
  else Run (Raise type_error) w [Requested Unbound_connect false].
Proof.
  unfold_gate. repeat branch_goal; reflexivity.
Qed.

Arguments guarded : simpl never.
Arguments throttle_admits : simpl never.
Arguments in_strs !v l : simpl nomatch.
Arguments package_of !current : simpl nomatch.
Arguments truthy !v : simpl nomatch.

(** The cycle as an equation [E : async_update env w = Run res w' ev]:
    expose the next guarded invocation, split on how it ends, and at the end
    of each path read off [res], [w'] and [ev]. *)
Ltac normalise E :=
  cbn [result world events self utcnow last_run on_self advance mark_run
       with_adb with_state with_running_apps with_current_app
       _host _adbkey _firetv_adb _adb_lock _name _state _running_apps
       _current_app _get_source _get_sources app negb
       truthy package_of in_strs existsb eq_str orb] in E.

Ltac use_flags E :=
  repeat match goal with
         | H : _get_source _ = _ |- _ => rewrite H in E
         | H : _get_sources _ = _ |- _ => rewrite H in E
         | H : _firetv_adb _ = _ |- _ => rewrite H in E
         end.

Ltac cycle_step E :=
  rewrite ?guarded_read, ?guarded_running_apps, ?guarded_connect in E;
  rewrite ?throttle_admits_on_self in E;
  use_flags E; normalise E;
  try (branch_in E; normalise E).

Ltac run_cycle E :=
  unfold async_update, bind, read, modify, asyncio_sleep, ret in E;
  normalise E;
  repeat (progress cycle_step E);
  inversion E; clear E; subst.

(** Start a proof about one cycle: name its outcome, world and events. *)
Ltac cycle_of env w E :=
  cbv zeta;
  let res := fresh "res" in
  let w' := fresh "w'" in
  let ev := fresh "ev" in
  destruct (async_update env w) as [res w' ev] eqn:E;
  run_cycle E.

Ltac use_reads :=
  repeat match goal with
         | H : _ \/ _ |- _ => destruct H
         | H : False |- _ => destruct H
         | H : In _ [] |- _ => destruct H
         | H : @eq pyval ?a ?b |- _ => first [subst a | subst b]
         end.

Ltac forget_throttle :=
  repeat match goal with
         | H : throttle_admits _ _ = _ |- _ => clear H
         | H : respond _ _ = _ |- _ => clear H
         | H : caught_by _ _ = _ |- _ => clear H
         end.

Ltac finish :=
  rewrite ?throttle_admits_on_self in *;
  repeat match goal with
         | H : ?b = _ |- context [if ?b then _ else _] => rewrite H
         end;
  forget_throttle;
  unfold reads, state, source, source_list;
  cbn;
  repeat (intros; cbn in *; use_reads;
          match goal with
          | |- _ /\ _ => split
          | |- _ <-> _ => split
          | |- ~ _ => intro
          end);
  intros; cbn in *; use_reads;
  repeat match goal with
         | H : ?b = _ |- context [if ?b then _ else _] => rewrite H
         end;
  try congruence; try discriminate; auto.

(* ===================================================================== *)
(** ** The polling cycle: the short-circuit branches *)
(* ===================================================================== *)

(** C6.  A polling cycle that finds the connection handle absent sets the
    state to Unknown and clears the current app and the source list; it
    makes exactly one request to the gate, for [connect], and probes nothing
    else: the only underlying operation that can run is [connect], and it
    runs once when the throttle admits the request. *)
Theorem disconnected_cycle (env : Env) (w : World) :
  _firetv_adb (self w) = None ->
  let r := async_update env w in
  state (self (world r)) = STATE_UNKNOWN /\
  source (self (world r)) = VNone /\
  source_list (self (world r)) = VNone /\
  requests (events r) = [Unbound_connect] /\
  invoked (events r) = (if throttle_admits MIN_TIME w then [connect] else []).
Proof.
  intros Hadb. cycle_of env w E; finish.
Qed.

Lemma disconnected_cycle_witness :
  let r := async_update (Sample.answers Sample.yes Sample.yes Sample.no_apps
                           (Sample.app Sample.netflix) Sample.yes)
             (Sample.fresh (Sample.device true true None)) in
  state (self (world r)) = STATE_UNKNOWN /\
  source (self (world r)) = VNone /\
  source_list (self (world r)) = VNone /\
  requests (events r) = [Unbound_connect] /\
  invoked (events r) = [connect].
Proof.
  apply (disconnected_cycle
           (Sample.answers Sample.yes Sample.yes Sample.no_apps
              (Sample.app Sample.netflix) Sample.yes)
           (Sample.fresh (Sample.device true true None))).
  reflexivity.
Defined.

(** C5.  In a polling cycle that finds the handle present: when the
    screen-on read comes back false or absent, the state is Off, the current
    app and the source list are cleared and the cycle ends with that single
    probe; when screen-on reads true and the awake read comes back false or
    absent, the state is Idle, both are cleared and the cycle ends after
    these two probes.  Nothing else the environment would answer matters. *)
Theorem off_and_idle_short_circuit (env : Env) (w : World) (h : Handle) :
  _firetv_adb (self w) = Some h ->
  let r := async_update env w in
  (forall v,
     reads (events r) (Name _screen_on) v -> truthy v = false ->
     result r = Ok tt /\
     state (self (world r)) = STATE_OFF /\
     source (self (world r)) = VNone /\
     source_list (self (world r)) = VNone /\
     requests (events r) = [Name _screen_on] /\
     invoked (events r) = [getattr_self _screen_on])
  /\
  (forall v v',
     reads (events r) (Name _screen_on) v -> truthy v = true ->
     reads (events r) (Name _awake) v' -> truthy v' = false ->
     result r = Ok tt /\
     state (self (world r)) = STATE_IDLE /\
     source (self (world r)) = VNone /\
     source_list (self (world r)) = VNone /\
     requests (events r) = [Name _screen_on; Name _awake] /\
     invoked (events r) = [getattr_self _screen_on; getattr_self _awake]).
Proof.
  intros Hadb. cycle_of env w E; finish.
Qed.

Lemma off_and_idle_short_circuit_witness :
  state (self (world (async_update
     (Sample.answers Sample.no Sample.yes Sample.no_apps
        (Sample.app Sample.netflix) Sample.yes)
     (Sample.fresh (Sample.device true true (Some (AdbCommands 1))))))) = STATE_OFF
  /\
  state (self (world (async_update
     (Sample.answers Sample.yes (Raises Sample.broken_pipe) Sample.no_apps
        (Sample.app Sample.netflix) Sample.yes)
     (Sample.fresh (Sample.device true true (Some (AdbCommands 1))))))) = STATE_IDLE.
Proof.
  split.
  - apply (proj1 (off_and_idle_short_circuit
             (Sample.answers Sample.no Sample.yes Sample.no_apps
                (Sample.app Sample.netflix) Sample.yes)
             (Sample.fresh (Sample.device true true (Some (AdbCommands 1))))
             (AdbCommands 1) eq_refl) (VBool false)).
    + vm_compute. left. reflexivity.
    + reflexivity.
  - apply (proj2 (off_and_idle_short_circuit
             (Sample.answers Sample.yes (Raises Sample.broken_pipe) Sample.no_apps
                (Sample.app Sample.netflix) Sample.yes)
             (Sample.fresh (Sample.device true true (Some (AdbCommands 1))))
             (AdbCommands 1) eq_refl) (VBool true) VNone).
    + vm_compute. left. reflexivity.
    + reflexivity.
    + vm_compute. left. reflexivity.
    + reflexivity.
Defined.

(* ===================================================================== *)
(** ** The polling cycle: deriving the state from the probes *)
(* ===================================================================== *)

(** C3.  In a polling cycle with the handle present in which screen-on and
    awake read true and, when the current app is fetched, it is neither the
    launcher nor the settings package: once the wake-lock read has come back,
    the cycle completes, the state is Playing exactly when the wake lock read
    true, and when it read false the state is Paused if the current app is
    fetched and Standby if it is not. *)
Theorem wake_lock_decides_playing (env : Env) (w : World) (h : Handle) :
  _firetv_adb (self w) = Some h ->
  let r := async_update env w in
  forall s a k,
    reads (events r) (Name _screen_on) s -> truthy s = true ->
    reads (events r) (Name _awake) a -> truthy a = true ->
    (_get_source (self w) = true ->
     in_strs (source (self (world r))) [PACKAGE_LAUNCHER; PACKAGE_SETTINGS] = false) ->
    reads (events r) (Name _wake_lock) k ->
    result r = Ok tt /\
    (state (self (world r)) = STATE_PLAYING <-> truthy k = true) /\
    (truthy k = false ->
     state (self (world r)) =
       if _get_source (self w) then STATE_PAUSED else STATE_STANDBY).
Proof.
  intros Hadb. cycle_of env w E; finish.
Qed.

(** C4.  In a polling cycle with the handle present and the current app
    fetched, in which screen-on and awake read true and the app taken from
    the current-app read is the launcher or the settings package: the cycle
    completes in state Standby whatever the wake lock would read, and the
    wake lock is neither requested from the gate nor read. *)
Theorem launcher_or_settings_is_standby (env : Env) (w : World) (h : Handle) :
  _firetv_adb (self w) = Some h ->
  _get_source (self w) = true ->
  let r := async_update env w in
  forall s a c,
    reads (events r) (Name _screen_on) s -> truthy s = true ->
    reads (events r) (Name _awake) a -> truthy a = true ->
    reads (events r) (Name current_app) c ->
    in_strs (package_of c) [PACKAGE_LAUNCHER; PACKAGE_SETTINGS] = true ->
    result r = Ok tt /\
    state (self (world r)) = STATE_STANDBY /\
    source (self (world r)) = package_of c /\
    ~ In (Name _wake_lock) (requests (events r)) /\
    ~ In (getattr_self _wake_lock) (invoked (events r)).
Proof.
  intros Hadb Hsrc. cycle_of env w E; finish.
Qed.

(** C7.  In a polling cycle that reaches the current-app read with the
    running apps not fetched and the current app fetched: the current app is
    what was taken from the read, and the source list is the one-element
    list holding it when it is truthy and absent otherwise; it is never a
    longer list. *)
Theorem single_source_invariant (env : Env) (w : World) :
  _get_sources (self w) = false ->
  _get_source (self w) = true ->
  let r := async_update env w in
  forall c,
    reads (events r) (Name current_app) c ->
    source (self (world r)) = package_of c /\
    source_list (self (world r)) =
      (if truthy (package_of c) then VList [package_of c] else VNone).
Proof.
  intros Hall Hsrc. cycle_of env w E; finish.
Qed.

Lemma wake_lock_decides_playing_witness :
  state (self (world (async_update
     (Sample.answers Sample.yes Sample.yes Sample.no_apps
        (Sample.app Sample.netflix) Sample.yes)
     (Sample.fresh (Sample.device true true (Some (AdbCommands 1))))))) = STATE_PLAYING
  /\
  state (self (world (async_update
     (Sample.answers Sample.yes Sample.yes Sample.no_apps
        (Sample.app Sample.netflix) Sample.no)
     (Sample.fresh (Sample.device false true (Some (AdbCommands 1))))))) = STATE_STANDBY.
Proof.
  split.
  - pose proof (wake_lock_decides_playing
             (Sample.answers Sample.yes Sample.yes Sample.no_apps
                (Sample.app Sample.netflix) Sample.yes)
             (Sample.fresh (Sample.device true true (Some (AdbCommands 1))))
             (AdbCommands 1) eq_refl (VBool true) (VBool true) (VBool true)) as H.
    cbv zeta in H. destruct H as (_ & Hiff & _).
    + vm_compute. left. reflexivity.
    + reflexivity.
    + vm_compute. left. reflexivity.
    + reflexivity.
    + intros _. vm_compute. reflexivity.
    + vm_compute. left. reflexivity.
    + apply Hiff. reflexivity.
  - pose proof (wake_lock_decides_playing
             (Sample.answers Sample.yes Sample.yes Sample.no_apps
                (Sample.app Sample.netflix) Sample.no)
             (Sample.fresh (Sample.device false true (Some (AdbCommands 1))))
             (AdbCommands 1) eq_refl (VBool true) (VBool true) (VBool false)) as H.
    cbv zeta in H. destruct H as (_ & _ & Hfalse).
    + vm_compute. left. reflexivity.
    + reflexivity.
    + vm_compute. left. reflexivity.
    + reflexivity.
    + intros Habs. vm_compute in Habs. discriminate Habs.
    + vm_compute. left. reflexivity.
    + apply Hfalse. reflexivity.
Defined.

Lemma launcher_or_settings_is_standby_witness :
  state (self (world (async_update
     (Sample.answers Sample.yes Sample.yes Sample.no_apps
        (Sample.app PACKAGE_LAUNCHER) Sample.yes)
     (Sample.fresh (Sample.device true true (Some (AdbCommands 1))))))) = STATE_STANDBY.
Proof.
  pose proof (launcher_or_settings_is_standby
             (Sample.answers Sample.yes Sample.yes Sample.no_apps
                (Sample.app PACKAGE_LAUNCHER) Sample.yes)
             (Sample.fresh (Sample.device true true (Some (AdbCommands 1))))
             (AdbCommands 1) eq_refl eq_refl (VBool true) (VBool true)
             (VDict [(VStr (str "package"), VStr PACKAGE_LAUNCHER);
                     (VStr (str "pid"), VInt 4321)])) as H.
  cbv zeta in H. destruct H as (_ & Hstate & _).
  - vm_compute. left. reflexivity.
  - reflexivity.
  - vm_compute. left. reflexivity.
  - reflexivity.
  - vm_compute. left. reflexivity.
  - vm_compute. reflexivity.
  - exact Hstate.
Defined.

Lemma single_source_invariant_witness :
  source_list (self (world (async_update
     (Sample.answers Sample.yes Sample.yes Sample.no_apps
        (Sample.app Sample.netflix) Sample.yes)
     (Sample.fresh (Sample.device true false (Some (AdbCommands 1)))))))
  = VList [VStr Sample.netflix].
Proof.
  pose proof (single_source_invariant
             (Sample.answers Sample.yes Sample.yes Sample.no_apps
                (Sample.app Sample.netflix) Sample.yes)
             (Sample.fresh (Sample.device true false (Some (AdbCommands 1))))
             eq_refl eq_refl
             (VDict [(VStr (str "package"), VStr Sample.netflix);
                     (VStr (str "pid"), VInt 4321)])) as H.
  cbv zeta in H. destruct H as (_ & Hlist).
  - vm_compute. left. reflexivity.
  - exact Hlist.
Defined.

(* ===================================================================== *)
(** ** The gate: faults *)
(* ===================================================================== *)

Lemma errors_logged_app (a b : list event) :
  errors_logged (a ++ b) = (errors_logged a + errors_logged b)%nat.
Proof.
  unfold errors_logged. rewrite filter_app, length_app. reflexivity.
Qed.

(** The [try] body by itself: it logs nothing and moves neither the clock nor
    the throttle; when it raises, the device is as it was. *)
Lemma run_command_frame (c : command) (p : bool) (env : Env)
    (args : list pyval) (w : World) :
  let r := run_command c p env args w in
  errors_logged (events r) = 0%nat /\
  utcnow (world r) = utcnow w /\
  last_run (world r) = last_run w /\
  (forall e, result r = Raise e -> self (world r) = self w) /\
  (self (world r) = self w \/
   c = Unbound_connect /\ self (world r) = with_adb (adb_after_connect env) (self w)).
Proof.
  destruct p, c as [a | | | m]; try destruct m;
    destruct args as [|x [|y l]];
    unfold run_command, py_getattr, py_apply, def, def_select_source,
      FireTV_connect, firetv, extern, bind, ret, raise, modify;
    cbn [result world events self];
    repeat branch_goal;
    cbn; repeat split; intros; try discriminate; auto.
Qed.

(** Which exceptions the gate recognizes: the instances of a class of
    [_exceptions]. *)
Lemma recognized_iff (e : exn) :
  caught_by _exceptions e = true <->
  exists c, In c _exceptions /\ isinstance e c = true.
Proof.
  unfold caught_by. apply existsb_exists.
Qed.

(** C2.  When the operation behind a guard raises an exception: if it is an
    instance of a class of the recognized set, the guard returns [None], the
    connection handle is [None], exactly one error line has been logged and
    nothing escapes; if it is not, the exception escapes the guard, nothing
    is logged and the handle is what it was. *)
Theorem gate_fault_contract (c : command) (is_property : bool) (env : Env)
    (args : list pyval) (w : World) (e : exn) :
  result (run_command c is_property env args w) = Raise e ->
  let r := _adb_command c is_property env args w in
  (caught_by _exceptions e = true ->
   result r = Ok VNone /\
   _firetv_adb (self (world r)) = None /\
   errors_logged (events r) = 1%nat)
  /\
  (caught_by _exceptions e = false ->
   result r = Raise e /\
   _firetv_adb (self (world r)) = _firetv_adb (self w) /\
   errors_logged (events r) = 0%nat).
Proof.
  intros Hraise.
  destruct (run_command_frame c is_property env args w) as (Hlog & _ & _ & Hself & _).
  unfold _adb_command, try_except, bind, emit, modify, ret. cbv zeta.
  destruct (run_command c is_property env args w) as [[v | e'] w1 ev1];
    cbn [result world events] in *; [discriminate Hraise |].
  injection Hraise as ->.
  split; intros Hc; rewrite Hc; cbn [result world events self on_self].
  - repeat split.
    rewrite !errors_logged_app, Hlog. reflexivity.
  - repeat split; [| exact Hlog].
    rewrite (Hself e eq_refl). reflexivity.
Qed.

Lemma gate_fault_contract_witness :
  let w := Sample.fresh (Sample.device true true (Some (AdbCommands 1))) in
  let lost := Sample.answers (Raises Sample.broken_pipe) Sample.yes Sample.no_apps
                (Sample.app Sample.netflix) Sample.yes in
  let late := Sample.answers (Raises Sample.timeout) Sample.yes Sample.no_apps
                (Sample.app Sample.netflix) Sample.yes in
  (result (_adb_command (Name _screen_on) true lost [] w) = Ok VNone /\
   _firetv_adb (self (world (_adb_command (Name _screen_on) true lost [] w))) = None /\
   errors_logged (events (_adb_command (Name _screen_on) true lost [] w)) = 1%nat)
  /\
  (result (_adb_command (Name _screen_on) true late [] w) = Raise Sample.timeout /\
   _firetv_adb (self (world (_adb_command (Name _screen_on) true late [] w)))
     = Some (AdbCommands 1) /\
   errors_logged (events (_adb_command (Name _screen_on) true late [] w)) = 0%nat).
Proof.
  cbv zeta. split.
  - apply (proj1 (gate_fault_contract (Name _screen_on) true
             (Sample.answers (Raises Sample.broken_pipe) Sample.yes Sample.no_apps
                (Sample.app Sample.netflix) Sample.yes) []
             (Sample.fresh (Sample.device true true (Some (AdbCommands 1))))
             Sample.broken_pipe eq_refl)).
    reflexivity.
  - apply (proj2 (gate_fault_contract (Name _screen_on) true
             (Sample.answers (Raises Sample.timeout) Sample.yes Sample.no_apps
                (Sample.app Sample.netflix) Sample.yes) []
             (Sample.fresh (Sample.device true true (Some (AdbCommands 1))))
             Sample.timeout eq_refl)).
    reflexivity.
Defined.

(** An admitted request is the guard itself, run once the throttle slot is
    stamped. *)
Lemma guarded_admitted (env : Env) (c : command) (p : bool)
    (args : list pyval) (w : World) :
  throttle_admits MIN_TIME w = true ->
  guarded env c p args w =
  let r := _adb_command c p env args (mark_run w) in
  Run (result r) (world r) (Requested c p :: events r).
Proof.
  intros H. unfold guarded, adb_command, Throttle, call, bind, emit, ret.
  rewrite H. cbn [result world events app].
  destruct (_adb_command c p env args (mark_run w)) as [r w1 ev1]. reflexivity.
Qed.

(** A request inside the interval: [adb_command] hands out [None], and
    calling it raises; nothing else happens. *)
Lemma guarded_throttled (env : Env) (c : command) (p : bool)
    (args : list pyval) (w : World) :
  throttle_admits MIN_TIME w = false ->
  adb_command c p w = Run (Ok None) w [Requested c p] /\
  guarded env c p args w = Run (Raise type_error) w [Requested c p].
Proof.
  intros H. unfold guarded, adb_command, Throttle, call, bind, emit, ret, raise.
  rewrite H. split; reflexivity.
Qed.

(** The guard moves neither the clock nor the throttle slot. *)
Lemma _adb_command_clock (c : command) (p : bool) (env : Env)
    (args : list pyval) (w : World) :
  utcnow (world (_adb_command c p env args w)) = utcnow w /\
  last_run (world (_adb_command c p env args w)) = last_run w.
Proof.
  destruct (run_command_frame c p env args w) as (_ & Hnow & Hlast & _).
  unfold _adb_command, try_except, bind, emit, modify, ret.
  destruct (run_command c p env args w) as [[v | e] w1 ev1];
    cbn [result world events] in *.
  - auto.
  - destruct (caught_by _exceptions e); cbn; auto.
Qed.

(* ===================================================================== *)
(** ** The gate: the throttle *)
(* ===================================================================== *)

(** An admitted request stamps the throttle slot with the time of the
    request; the guard that follows does not move the clock. *)
Lemma guarded_stamps (env : Env) (c : command) (p : bool)
    (args : list pyval) (w : World) :
  throttle_admits MIN_TIME w = true ->
  utcnow (world (guarded env c p args w)) = utcnow w /\
  last_run (world (guarded env c p args w)) = Some (utcnow w).
Proof.
  intros H. rewrite (guarded_admitted env c p args w H). cbv zeta.
  cbn [world].
  destruct (_adb_command_clock c p env args (mark_run w)) as [Hnow Hlast].
  rewrite Hnow, Hlast. split; reflexivity.
Qed.

(** C1, as the code has it.  Of two guarded invocations issued within 10 ms
    of each other, the first of which the throttle admitted, the second runs
    no underlying operation, logs nothing and leaves the device as the first
    left it: the throttled [adb_command] hands out [None].  This holds
    whatever the two commands are, the same one or two different ones: the
    throttle slot belongs to [adb_command], not to the command. *)
Theorem throttle_skips_second_request (env1 env2 : Env) (c1 c2 : command)
    (p1 p2 : bool) (args1 args2 : list pyval) (w : World) (d : Z) :
  throttle_admits MIN_TIME w = true ->
  0 <= d <= MIN_TIME ->
  let r1 := guarded env1 c1 p1 args1 w in
  let r2 := guarded env2 c2 p2 args2 (advance d (world r1)) in
  result (adb_command c2 p2 (advance d (world r1))) = Ok None /\
  invoked (events r2) = [] /\
  errors_logged (events r2) = 0%nat /\
  self (world r2) = self (world r1).
Proof.
  intros Hadmit Hd r1 r2.
  destruct (guarded_stamps env1 c1 p1 args1 w Hadmit) as [Hnow Hlast].
  assert (Hskip : throttle_admits MIN_TIME (advance d (world r1)) = false).
  { unfold throttle_admits, advance. cbn [utcnow last_run].
    subst r1. rewrite Hlast, Hnow.
    rewrite Z.gtb_ltb. apply Z.ltb_ge. lia. }
  destruct (guarded_throttled env2 c2 p2 args2 _ Hskip) as [Hf Hg].
  subst r2. rewrite Hf, Hg. cbn. auto.
Qed.

Lemma throttle_skips_second_request_witness :
  let env := Sample.answers Sample.yes Sample.yes Sample.no_apps
               (Sample.app Sample.netflix) Sample.yes in
  let w := Sample.fresh (Sample.device true true (Some (AdbCommands 1))) in
  let r1 := guarded env (Name _screen_on) true [] w in
  let r2 := guarded env (Name _awake) true [] (advance 10000 (world r1)) in
  result (adb_command (Name _awake) true (advance 10000 (world r1))) = Ok None /\
  invoked (events r2) = [] /\
  errors_logged (events r2) = 0%nat /\
  self (world r2) = self (world r1).
Proof.
  apply (throttle_skips_second_request
           (Sample.answers Sample.yes Sample.yes Sample.no_apps
              (Sample.app Sample.netflix) Sample.yes)
           (Sample.answers Sample.yes Sample.yes Sample.no_apps
              (Sample.app Sample.netflix) Sample.yes)
           (Name _screen_on) (Name _awake) true true [] []
           (Sample.fresh (Sample.device true true (Some (AdbCommands 1))))
           10000).
  - reflexivity.
  - unfold MIN_TIME. lia.
Defined.

(** C1, as the claim has it, fails.  The screen-on read returns [True]; the
    same read 5 ms later does not return that value: it raises [TypeError],
    because [adb_command] handed out [None] in place of the guard.  And the
    awake read, a different operation, issued 5 ms after the screen-on read
    is skipped in the same way. *)
Lemma second_read_reuses_no_value :
  let env := Sample.answers Sample.yes Sample.yes Sample.no_apps
               (Sample.app Sample.netflix) Sample.yes in
  let w := Sample.fresh (Sample.device true true (Some (AdbCommands 1))) in
  let r1 := guarded env (Name _screen_on) true [] w in
  let r2 := guarded env (Name _screen_on) true [] (advance 5000 (world r1)) in
  let r3 := guarded env (Name _awake) true [] (advance 5000 (world r1)) in
  result r1 = Ok (VBool true) /\
  result r2 = Raise type_error /\
  result r2 <> result r1 /\
  returned (events r2) (Name _screen_on) = [] /\
  result r3 = Raise type_error /\
  invoked (events r3) = [].
Proof.
  cbv zeta. repeat split; try reflexivity.
  vm_compute. discriminate.
Qed.

(* ===================================================================== *)
(** ** The decorated methods *)
(* ===================================================================== *)

(** What the decorator hands back for a method: the guard of its body, or
    [None] inside the throttle interval. *)
Lemma adb_command_def (m : action) (w : World) :
  exists f w1 ev1,
    adb_command (Def m) false w = Run (Ok f) w1 ev1 /\
    (f = None \/ f = Some (_adb_command (Def m) false)).
Proof.
  unfold adb_command, Throttle, bind, emit, ret.
  destruct (throttle_admits MIN_TIME w); cbn; eauto 6.
Qed.

Lemma bind_name_well_bound (m : action) (f : option callable) (cls : methods) :
  well_bound cls ->
  f = None \/ f = Some (_adb_command (Def m) false) ->
  well_bound (bind_name m f cls).
Proof.
  intros Hcls Hf m'. unfold bind_name.
  destruct (action_eqb m m') eqn:E; [| apply Hcls].
  destruct m, m'; try discriminate E; exact Hf.
Qed.

(** The class body always completes and leaves every name well bound. *)
Lemma class_body_well_bound (defs : list action) (elapsed : action -> Z) :
  forall (cls : methods) (w : World),
    well_bound cls ->
    exists cls', result (class_body defs elapsed cls w) = Ok cls' /\
                 well_bound cls'.
Proof.
  induction defs as [| m rest IH]; intros cls w Hcls.
  - exists cls. split; [reflexivity | exact Hcls].
  - cbn [class_body]. unfold bind at 1 2, asyncio_sleep.
    destruct (adb_command_def m (advance (elapsed m) w))
      as (f & w1 & ev1 & Hrun & Hf).
    rewrite Hrun.
    destruct (IH (bind_name m f cls) w1
                (bind_name_well_bound m f cls Hcls Hf)) as (cls' & Hres & Hwb).
    exists cls'. split; [| exact Hwb].
    destruct (class_body rest elapsed (bind_name m f cls) w1) as [r w2 ev2].
    exact Hres.
Qed.

Lemma FireTVDevice_class_well_bound (elapsed : action -> Z) (wc : World) :
  well_bound (FireTVDevice_class elapsed wc).
Proof.
  unfold FireTVDevice_class.
  destruct (class_body_well_bound decorated elapsed (fun _ => None) wc)
    as (cls & Hres & Hwb).
  - intros m. left. reflexivity.
  - rewrite Hres. exact Hwb.
Qed.

(** Decorators that run 20 ms apart are all admitted; decorators that run
    1 us apart are not: only the first name is bound to a guard. *)
Example class_body_slow_import :
  map (fun m => match FireTVDevice_class Sample.slow_import
                        (Sample.fresh (Sample.device true true None)) m with
                | Some _ => true
                | None => false
                end) decorated
  = [true; true; true; true; true; true; true; true; true; true; true].
Proof. reflexivity. Qed.

Example class_body_fast_import :
  map (fun m => match FireTVDevice_class Sample.fast_import
                        (Sample.fresh (Sample.device true true None)) m with
                | Some _ => true
                | None => false
                end) decorated
  = [true; false; false; false; false; false; false; false; false; false; false].
Proof. reflexivity. Qed.

(** [lstrip] removes a prefix of white space and stops at the first code
    point that is not. *)
Lemma lstrip_spec (s : pystr) :
  exists ws,
    s = ws ++ lstrip s /\
    forallb isspace ws = true /\
    match lstrip s with
    | [] => True
    | c :: _ => isspace c = false
    end.
Proof.
  induction s as [| c s IH].
  - exists []. cbn. auto.
  - cbn [lstrip]. destruct (isspace c) eqn:E.
    + destruct IH as (ws & Heq & Hws & Hhd).
      exists (c :: ws). cbn [app forallb]. rewrite E, Hws.
      split; [f_equal; exact Heq | split; [reflexivity | exact Hhd]].
    + exists []. cbn. rewrite E. auto.
Qed.

(** The guard of [select_source] on a string: the one operation it runs. *)
Lemma select_source_invoked (env : Env) (w : World) (s : pystr) :
  invoked (events (_adb_command (Def select_source) false env [VStr s] w)) =
  if startswith_bang s then [firetv_stop_app (lstrip (slice_from_1 s))]
  else [firetv_launch_app s].
Proof.
  unfold_gate. unfold def, def_select_source, firetv, extern, bind, ret.
  destruct (startswith_bang s); cbn [negb];
    repeat branch_goal; reflexivity.
Qed.

(** C8.  [select_source] as the class binds it.  After an import in which
    the decorators of the class body run 1 us apart, the decorator call of
    [select_source] falls inside the throttle interval opened by the one of
    [turn_on]: the name is bound to [None], and [select_source("!com.foo")]
    and [select_source("com.foo")] raise [TypeError] without running
    [stop_app] or [launch_app].  After an import in which the decorators run
    20 ms apart the name is bound to its guard and the method dispatches as
    its docstring says: ["!com.foo"] and ["! com.foo"] stop ["com.foo"] (the
    sigil is dropped and the white space after it trimmed) and ["com.foo"]
    launches ["com.foo"]. *)
Theorem select_source_after_import :
  let env := Sample.answers Sample.yes Sample.yes Sample.no_apps
               (Sample.app Sample.netflix) Sample.yes in
  let w := Sample.fresh (Sample.device true true (Some (AdbCommands 1))) in
  let fast := FireTVDevice_class Sample.fast_import
                (Sample.fresh (Sample.device true true None)) in
  let slow := FireTVDevice_class Sample.slow_import
                (Sample.fresh (Sample.device true true None)) in
  invoke fast select_source env [VStr (str "!com.foo")] w
    = Run (Raise type_error) w [] /\
  invoke fast select_source env [VStr (str "com.foo")] w
    = Run (Raise type_error) w [] /\
  invoked (events (invoke slow select_source env [VStr (str "!com.foo")] w))
    = [firetv_stop_app (str "com.foo")] /\
  invoked (events (invoke slow select_source env [VStr (str "! com.foo")] w))
    = [firetv_stop_app (str "com.foo")] /\
  invoked (events (invoke slow select_source env [VStr (str "com.foo")] w))
    = [firetv_launch_app (str "com.foo")].
Proof.
  cbv zeta. repeat split; reflexivity.
Qed.

(** In a class whose [select_source] is bound, calling the method is
    calling that guard. *)
Lemma invoke_select_source (elapsed : action -> Z) (wc : World) (env : Env)
    (w : World) (s : pystr) :
  FireTVDevice_class elapsed wc select_source <> None ->
  invoked (events (invoke (FireTVDevice_class elapsed wc) select_source env
                     [VStr s] w)) =
  if startswith_bang s then [firetv_stop_app (lstrip (slice_from_1 s))]
  else [firetv_launch_app s].
Proof.
  intros Hbound. unfold invoke.
  destruct (FireTVDevice_class_well_bound elapsed wc select_source) as [E | E];
    [contradiction |].
  rewrite E. cbn [call]. apply select_source_invoked.
Qed.

(* ===================================================================== *)
(** ** Actions leave the derived state alone *)
(* ===================================================================== *)

(** A guard changes the device at most in its handle; only the guard of
    [connect] can set it to something else than [None]. *)
Lemma _adb_command_frame (c : command) (p : bool) (env : Env)
    (args : list pyval) (w : World) :
  let d' := self (world (_adb_command c p env args w)) in
  d' = self w \/ d' = with_adb None (self w) \/
  c = Unbound_connect /\ d' = with_adb (adb_after_connect env) (self w).
Proof.
  destruct (run_command_frame c p env args w) as (_ & _ & _ & Hraise & Hself).
  unfold _adb_command, try_except, bind, emit, modify, ret. cbv zeta.
  destruct (run_command c p env args w) as [[v | e] w1 ev1];
    cbn [result world events] in *.
  - destruct Hself as [-> | [-> ->]]; auto.
  - pose proof (Hraise e eq_refl) as Hw1.
    destruct (caught_by _exceptions e); cbn; rewrite Hw1; auto.
Qed.

Lemma invoke_frame (cls : methods) (m : action) (env : Env)
    (args : list pyval) (w : World) :
  well_bound cls ->
  let d' := self (world (invoke cls m env args w)) in
  d' = self w \/ d' = with_adb None (self w).
Proof.
  intros Hwb. unfold invoke. cbv zeta.
  destruct (Hwb m) as [-> | ->]; cbn [call].
  - left. reflexivity.
  - destruct (_adb_command_frame (Def m) false env args w) as [H | [H | [H _]]];
      [auto | auto | discriminate H].
Qed.

(** C9.  Whatever the class body bound the action to, whatever the device
    and whatever the arguments: invoking the action leaves the stored state,
    the current app and the source list as they were; the device is
    unchanged, or changed only in its connection handle, set to [None]. *)
Theorem actions_keep_state_and_sources (elapsed : action -> Z) (wc : World)
    (m : action) (env : Env) (args : list pyval) (w : World) :
  let r := invoke (FireTVDevice_class elapsed wc) m env args w in
  state (self (world r)) = state (self w) /\
  source (self (world r)) = source (self w) /\
  source_list (self (world r)) = source_list (self w) /\
  (self (world r) = self w \/ self (world r) = with_adb None (self w)).
Proof.
  cbv zeta.
  destruct (invoke_frame (FireTVDevice_class elapsed wc) m env args w
              (FireTVDevice_class_well_bound elapsed wc)) as [H | H];
    rewrite H; cbn; auto.
Qed.

(* ===================================================================== *)
(** ** The current app is fetched only when asked for *)
(* ===================================================================== *)

(** With the toggle off, a polling cycle leaves the current app absent. *)
Lemma async_update_no_source (env : Env) (w : World) :
  _get_source (self w) = false ->
  _current_app (self w) = VNone ->
  _get_source (self (world (async_update env w))) = false /\
  _current_app (self (world (async_update env w))) = VNone.
Proof.
  intros Hsrc Happ. cycle_of env w E; finish.
Qed.

Lemma do_step_no_source (cls : methods) (s : step) (w : World) :
  well_bound cls ->
  _get_source (self w) = false ->
  _current_app (self w) = VNone ->
  _get_source (self (do_step cls s w)) = false /\
  _current_app (self (do_step cls s w)) = VNone.
Proof.
  intros Hwb Hsrc Happ. destruct s as [env | m env args | d]; cbn [do_step].
  - apply async_update_no_source; assumption.
  - destruct (invoke_frame cls m env args w Hwb) as [H | H];
      rewrite H; cbn; auto.
  - cbn. auto.
Qed.

Lemma do_steps_no_source (cls : methods) (l : list step) :
  well_bound cls ->
  forall w,
    _get_source (self w) = false ->
    _current_app (self w) = VNone ->
    _current_app (self (do_steps cls l w)) = VNone.
Proof.
  intros Hwb. unfold do_steps.
  induction l as [| s l IH]; intros w Hsrc Happ; cbn [fold_left].
  - exact Happ.
  - destruct (do_step_no_source cls s w Hwb Hsrc Happ) as [Hsrc' Happ'].
    apply IH; assumption.
Qed.

(** C10.  A device constructed with the current-app toggle off reports no
    source: after construction, and after any sequence of polling cycles
    and actions, at any times and with any answers of the environment. *)
Theorem source_absent_when_not_fetched (host name adbkey : pystr)
    (get_sources : bool) (adb : option Handle)
    (elapsed : action -> Z) (wc : World) (now : Z) (last : option Z)
    (history : list step) :
  source (__init__ host name adbkey false get_sources adb) = VNone /\
  source (self (do_steps (FireTVDevice_class elapsed wc) history
                  {| self := __init__ host name adbkey false get_sources adb;
                     utcnow := now; last_run := last |})) = VNone.
Proof.
  split; [reflexivity |].
  apply do_steps_no_source.
  - apply FireTVDevice_class_well_bound.
  - reflexivity.
  - reflexivity.
Qed.

(* ===================================================================== *)
(** ** More on the guard *)
(* ===================================================================== *)

(** X1.  No exception of the recognized set ever leaves a guard, whatever the
    command and its arguments: an exception that escapes is one the
    operation raised and [except self._exceptions] does not match. *)
Theorem guard_never_raises_recognized (c : command) (is_property : bool)
    (env : Env) (args : list pyval) (w : World) (e : exn) :
  result (_adb_command c is_property env args w) = Raise e ->
  caught_by _exceptions e = false /\
  result (run_command c is_property env args w) = Raise e.
Proof.
  unfold _adb_command, try_except, bind, emit, modify, ret.
  destruct (run_command c is_property env args w) as [[v | e'] w1 ev1];
    cbn [result world events].
  - discriminate.
  - destruct (caught_by _exceptions e') eqn:Hc; cbn [result].
    + discriminate.
    + intros H. injection H as <-. auto.
Qed.

Lemma guard_never_raises_recognized_witness :
  caught_by _exceptions Sample.timeout = false /\
  result (run_command (Name _awake) true
            (Sample.answers Sample.yes (Raises Sample.timeout) Sample.no_apps
               (Sample.app Sample.netflix) Sample.yes) []
            (Sample.fresh (Sample.device true true (Some (AdbCommands 1)))))
  = Raise Sample.timeout.
Proof.
  apply (guard_never_raises_recognized (Name _awake) true
           (Sample.answers Sample.yes (Raises Sample.timeout) Sample.no_apps
              (Sample.app Sample.netflix) Sample.yes) []
           (Sample.fresh (Sample.device true true (Some (AdbCommands 1))))).
  reflexivity.
Defined.



(** The guard of a method called with the wrong number of arguments. *)
Lemma guard_wrong_arity (m : action) (env : Env) (args : list pyval) (w : World) :
  List.length args <> arity m ->
  let r := _adb_command (Def m) false env args w in
  result r = Ok VNone /\
  invoked (events r) = [] /\
  errors_logged (events r) = 1%nat /\
  self (world r) = with_adb None (self w).
Proof.
  intros Hlen. cbv zeta.
  unfold _adb_command, try_except, run_command, py_apply, def, bind, emit,
    modify, ret, raise.
  destruct m, args as [| x [| y l]]; cbn in Hlen; try contradiction;
    cbn; auto.
Qed.

(** X3.  A decorated method called with the wrong number of arguments, on
    any class the class body can produce.  When the name is bound to its
    guard, the [TypeError] of the call is raised inside the [try]: no
    underlying operation runs, one error is logged, the call returns [None]
    and the connection handle is dropped.  When the name is bound to [None],
    the call raises [TypeError] outside any guard: nothing runs, nothing is
    logged and the device is as it was. *)
Theorem wrong_arity_drops_connection (elapsed : action -> Z) (wc : World)
    (m : action) (env : Env) (args : list pyval) (w : World) :
  List.length args <> arity m ->
  let cls := FireTVDevice_class elapsed wc in
  let r := invoke cls m env args w in
  match cls m with
  | Some _ =>
      result r = Ok VNone /\
      invoked (events r) = [] /\
      errors_logged (events r) = 1%nat /\
      self (world r) = with_adb None (self w)
  | None => r = Run (Raise type_error) w []
  end.
Proof.
  intros Hlen. cbv zeta. unfold invoke.
  destruct (FireTVDevice_class_well_bound elapsed wc m) as [E | E];
    rewrite E; cbn [call].
  - reflexivity.
  - apply guard_wrong_arity. exact Hlen.
Qed.

Lemma wrong_arity_drops_connection_witness :
  let cls := FireTVDevice_class Sample.slow_import
               (Sample.fresh (Sample.device true true None)) in
  let r := invoke cls turn_off
             (Sample.answers Sample.yes Sample.yes Sample.no_apps
                (Sample.app Sample.netflix) Sample.yes)
             [VInt 1]
             (Sample.fresh (Sample.device true true (Some (AdbCommands 1)))) in
  result r = Ok VNone /\
  invoked (events r) = [] /\
  errors_logged (events r) = 1%nat /\
  self (world r) = with_adb None (Sample.device true true (Some (AdbCommands 1))).
Proof.
  exact (wrong_arity_drops_connection Sample.slow_import
           (Sample.fresh (Sample.device true true None)) turn_off
           (Sample.answers Sample.yes Sample.yes Sample.no_apps
              (Sample.app Sample.netflix) Sample.yes)
           [VInt 1]
           (Sample.fresh (Sample.device true true (Some (AdbCommands 1))))
           ltac:(cbn; discriminate)).
Defined.

(** The guard of [select_source] on an argument that is not a [str]. *)
Lemma guard_select_source_non_string (env : Env) (w : World) (v : pyval) :
  (forall s, v <> VStr s) ->
  _adb_command (Def select_source) false env [v] w =
  Run (Ok VNone) w [Returned (Def select_source) VNone].
Proof.
  intros Hv.
  unfold _adb_command, try_except, run_command, py_apply, def,
    def_select_source, bind, emit, modify, ret.
  destruct v; try reflexivity.
  exfalso. apply (Hv s). reflexivity.
Qed.

(** X4.  [select_source] called with an argument that is not a [str], on
    any class the class body can produce.  When the name is bound to its
    guard the call does nothing: no underlying operation, no log line, the
    device and the clock untouched, [None] returned.  When the name is
    bound to [None] the call raises [TypeError] and nothing else happens. *)
Theorem select_source_ignores_non_strings (elapsed : action -> Z) (wc : World)
    (env : Env) (w : World) (v : pyval) :
  (forall s, v <> VStr s) ->
  let cls := FireTVDevice_class elapsed wc in
  invoke cls select_source env [v] w =
  match cls select_source with
  | Some _ => Run (Ok VNone) w [Returned (Def select_source) VNone]
  | None => Run (Raise type_error) w []
  end.
Proof.
  intros Hv. cbv zeta. unfold invoke.
  destruct (FireTVDevice_class_well_bound elapsed wc select_source) as [E | E];
    rewrite E; cbn [call].
  - reflexivity.
  - apply guard_select_source_non_string. exact Hv.
Qed.

Lemma select_source_ignores_non_strings_witness :
  invoke (FireTVDevice_class Sample.slow_import
            (Sample.fresh (Sample.device true true None)))
    select_source
    (Sample.answers Sample.yes Sample.yes Sample.no_apps
       (Sample.app Sample.netflix) Sample.yes)
    [VNone]
    (Sample.fresh (Sample.device true true (Some (AdbCommands 1)))) =
  Run (Ok VNone) (Sample.fresh (Sample.device true true (Some (AdbCommands 1))))
    [Returned (Def select_source) VNone].
Proof.
  exact (select_source_ignores_non_strings Sample.slow_import
           (Sample.fresh (Sample.device true true None))
           (Sample.answers Sample.yes Sample.yes Sample.no_apps
              (Sample.app Sample.netflix) Sample.yes)
           (Sample.fresh (Sample.device true true (Some (AdbCommands 1))))
           VNone ltac:(intros s; discriminate)).
Defined.

Lemma lstrip_all_space (ws : pystr) :
  forallb isspace ws = true -> lstrip ws = [].
Proof.
  induction ws as [| c ws IH]; cbn [forallb lstrip]; [reflexivity |].
  intros H. apply andb_prop in H. destruct H as [Hc Hws].
  rewrite Hc. apply IH. exact Hws.
Qed.

(** X5.  [select_source] on a ['!'] followed by nothing but white space, on
    any class the class body can produce.  When the name is bound to its
    guard the one operation run is [stop_app] with the empty name: the
    stripped argument is not checked for being empty.  When the name is
    bound to [None] the call raises [TypeError] and runs nothing. *)
Theorem bare_sigil_stops_empty_name (elapsed : action -> Z) (wc : World)
    (env : Env) (w : World) (ws : pystr) :
  forallb isspace ws = true ->
  let cls := FireTVDevice_class elapsed wc in
  let r := invoke cls select_source env [VStr (33%N :: ws)] w in
  match cls select_source with
  | Some _ => invoked (events r) = [firetv_stop_app []]
  | None => r = Run (Raise type_error) w []
  end.
Proof.
  intros Hws. cbv zeta. unfold invoke.
  destruct (FireTVDevice_class_well_bound elapsed wc select_source) as [E | E];
    rewrite E; cbn [call].
  - reflexivity.
  - rewrite select_source_invoked.
    cbn [startswith_bang slice_from_1 tl]. rewrite N.eqb_refl.
    rewrite (lstrip_all_space ws Hws). reflexivity.
Qed.

Lemma bare_sigil_stops_empty_name_witness :
  invoked (events (invoke
     (FireTVDevice_class Sample.slow_import
        (Sample.fresh (Sample.device true true None)))
     select_source
     (Sample.answers Sample.yes Sample.yes Sample.no_apps
        (Sample.app Sample.netflix) Sample.yes)
     [VStr (str "!  ")]
     (Sample.fresh (Sample.device true true (Some (AdbCommands 1))))))
  = [firetv_stop_app []].
Proof.
  exact (bare_sigil_stops_empty_name Sample.slow_import
           (Sample.fresh (Sample.device true true None))
           (Sample.answers Sample.yes Sample.yes Sample.no_apps
              (Sample.app Sample.netflix) Sample.yes)
           (Sample.fresh (Sample.device true true (Some (AdbCommands 1))))
           (str "  ") eq_refl).
Defined.

(** The guard of a method called without arguments. *)
Lemma guard_runs_one_operation (m : action) (env : Env) (w : World) :
  let r := _adb_command (Def m) false env [] w in
  List.length (invoked (events r)) =
    (if action_eqb m select_source then 0 else 1)%nat /\
  (result r = Ok VNone \/
   exists e, result r = Raise e /\ caught_by _exceptions e = false).
Proof.
  cbv zeta.
  unfold _adb_command, try_except, run_command, py_apply, def, firetv, extern,
    bind, emit, modify, ret, raise.
  destruct m; cbn [action_eqb result world events];
    repeat branch_goal; cbn; split; eauto.
Qed.

(** X6.  A decorated method called without arguments, on any class the
    class body can produce.  When the name is bound to its guard the call
    runs exactly one underlying operation ([select_source], which lacks its
    argument, runs none) and comes back with [None] or with an exception
    outside the recognized set.  When the name is bound to [None] the call
    runs nothing and raises [TypeError]. *)
Theorem action_runs_one_operation (elapsed : action -> Z) (wc : World)
    (m : action) (env : Env) (w : World) :
  let cls := FireTVDevice_class elapsed wc in
  let r := invoke cls m env [] w in
  match cls m with
  | Some _ =>
      List.length (invoked (events r)) =
        (if action_eqb m select_source then 0 else 1)%nat /\
      (result r = Ok VNone \/
       exists e, result r = Raise e /\ caught_by _exceptions e = false)
  | None => r = Run (Raise type_error) w []
  end.
Proof.
  cbv zeta. unfold invoke.
  destruct (FireTVDevice_class_well_bound elapsed wc m) as [E | E];
    rewrite E; cbn [call].
  - reflexivity.
  - apply guard_runs_one_operation.
Qed.

(* ===================================================================== *)
(** ** More on the throttle *)
(* ===================================================================== *)

(** X8.  Two guarded reads issued more than 10 ms apart both reach the device:
    after an admitted request, a request made later than [MIN_TIME] is
    admitted again, and the read behind it runs. *)
Theorem spaced_requests_both_run (env1 env2 : Env) (c1 : command) (p1 : bool)
    (args1 : list pyval) (a : attr) (w : World) (d : Z) :
  throttle_admits MIN_TIME w = true ->
  MIN_TIME < d ->
  let r1 := guarded env1 c1 p1 args1 w in
  let r2 := guarded env2 (Name a) true [] (advance d (world r1)) in
  throttle_admits MIN_TIME (advance d (world r1)) = true /\
  invoked (events r2) = [getattr_self a] /\
  last_run (world r2) = Some (utcnow w + d).
Proof.
  intros Hadmit Hd r1 r2.
  destruct (guarded_stamps env1 c1 p1 args1 w Hadmit) as [Hnow Hlast].
  assert (Hopen : throttle_admits MIN_TIME (advance d (world r1)) = true).
  { unfold throttle_admits, advance. cbn [utcnow last_run].
    subst r1. rewrite Hlast, Hnow.
    rewrite Z.gtb_ltb. apply Z.ltb_lt. lia. }
  split; [exact Hopen |].
  destruct (guarded_stamps env2 (Name a) true [] _ Hopen) as [_ Hlast2].
  subst r2. rewrite Hlast2. cbn [advance utcnow]. subst r1. rewrite Hnow.
  split; [| reflexivity].
  rewrite guarded_read, Hopen.
  destruct (respond env2 (getattr_self a)) as [v | e];
    [| destruct (caught_by _exceptions e)]; reflexivity.
Qed.

Lemma spaced_requests_both_run_witness :
  let env := Sample.answers Sample.yes Sample.yes Sample.no_apps
               (Sample.app Sample.netflix) Sample.yes in
  let w := Sample.fresh (Sample.device true true (Some (AdbCommands 1))) in
  let r1 := guarded env (Name _screen_on) true [] w in
  let r2 := guarded env (Name _screen_on) true [] (advance 10001 (world r1)) in
  throttle_admits MIN_TIME (advance 10001 (world r1)) = true /\
  invoked (events r2) = [getattr_self _screen_on] /\
  last_run (world r2) = Some (0 + 10001).
Proof.
  apply (spaced_requests_both_run
           (Sample.answers Sample.yes Sample.yes Sample.no_apps
              (Sample.app Sample.netflix) Sample.yes)
           (Sample.answers Sample.yes Sample.yes Sample.no_apps
              (Sample.app Sample.netflix) Sample.yes)
           (Name _screen_on) true [] _screen_on
           (Sample.fresh (Sample.device true true (Some (AdbCommands 1))))
           10001).
  - reflexivity.
  - unfold MIN_TIME. lia.
Defined.

(** X9.  A rejected request does not restart the interval: the throttle slot
    keeps the time of the last admitted request, so a request made more
    than 10 ms after that one is admitted even when a rejected request came
    in between less than 10 ms before it. *)
Theorem rejected_request_keeps_interval (env1 env2 : Env) (c1 c2 c3 : command)
    (p1 p2 p3 : bool) (args1 args2 : list pyval) (w : World) (d1 d2 : Z) :
  throttle_admits MIN_TIME w = true ->
  0 <= d1 <= MIN_TIME ->
  MIN_TIME < d1 + d2 ->
  let r1 := guarded env1 c1 p1 args1 w in
  let r2 := guarded env2 c2 p2 args2 (advance d1 (world r1)) in
  last_run (world r2) = Some (utcnow w) /\
  result (adb_command c3 p3 (advance d2 (world r2))) =
    Ok (Some (_adb_command c3 p3)).
Proof.
  intros Hadmit Hd1 Hd2 r1 r2.
  destruct (guarded_stamps env1 c1 p1 args1 w Hadmit) as [Hnow Hlast].
  assert (Hskip : throttle_admits MIN_TIME (advance d1 (world r1)) = false).
  { unfold throttle_admits, advance. cbn [utcnow last_run].
    subst r1. rewrite Hlast, Hnow.
    rewrite Z.gtb_ltb. apply Z.ltb_ge. lia. }
  destruct (guarded_throttled env2 c2 p2 args2 _ Hskip) as [_ Hg].
  subst r2. rewrite Hg. cbn [world advance last_run utcnow].
  subst r1. rewrite Hlast. split; [reflexivity |].
  unfold adb_command, Throttle, bind, emit, ret.
  cbn [result world events].
  assert (Hopen : throttle_admits MIN_TIME
            (advance d2 (advance d1 (world (guarded env1 c1 p1 args1 w)))) = true).
  { unfold throttle_admits, advance. cbn [utcnow last_run].
    rewrite Hlast, Hnow. rewrite Z.gtb_ltb. apply Z.ltb_lt. lia. }
  rewrite Hopen. reflexivity.
Qed.

Lemma rejected_request_keeps_interval_witness :
  let env := Sample.answers Sample.yes Sample.yes Sample.no_apps
               (Sample.app Sample.netflix) Sample.yes in
  let w := Sample.fresh (Sample.device true true (Some (AdbCommands 1))) in
  let r1 := guarded env (Name _screen_on) true [] w in
  let r2 := guarded env (Name _awake) true [] (advance 6000 (world r1)) in
  last_run (world r2) = Some 0 /\
  result (adb_command (Name _awake) true (advance 6000 (world r2))) =
    Ok (Some (_adb_command (Name _awake) true)).
Proof.
  apply (rejected_request_keeps_interval
           (Sample.answers Sample.yes Sample.yes Sample.no_apps
              (Sample.app Sample.netflix) Sample.yes)
           (Sample.answers Sample.yes Sample.yes Sample.no_apps
              (Sample.app Sample.netflix) Sample.yes)
           (Name _screen_on) (Name _awake) (Name _awake) true true true [] []
           (Sample.fresh (Sample.device true true (Some (AdbCommands 1))))
           6000 6000).
  - reflexivity.
  - unfold MIN_TIME. lia.
  - unfold MIN_TIME. lia.
Defined.

(* ===================================================================== *)
(** ** More on the class body *)
(* ===================================================================== *)

(** One decorator line of the class body. *)
Lemma class_body_cons (m : action) (rest : list action) (elapsed : action -> Z)
    (cls : methods) (w : World) :
  class_body (m :: rest) elapsed cls w =
  match adb_command (Def m) false (advance (elapsed m) w) with
  | Run (Ok f) w1 ev1 =>
      match class_body rest elapsed (bind_name m f cls) w1 with
      | Run r w2 ev2 => Run r w2 (ev1 ++ ev2)
      end
  | Run (Raise e) w1 ev1 => Run (Raise e) w1 ev1
  end.
Proof.
  cbn [class_body]. unfold bind at 1 2, asyncio_sleep.
  destruct (adb_command (Def m) false (advance (elapsed m) w)) as [[f | e] w1 ev1];
    [| reflexivity].
  destruct (class_body rest elapsed (bind_name m f cls) w1). reflexivity.
Qed.

Lemma adb_command_admitted (c : command) (p : bool) (w : World) :
  throttle_admits MIN_TIME w = true ->
  adb_command c p w =
  Run (Ok (Some (_adb_command c p))) (mark_run w) [Requested c p].
Proof.
  intros H. unfold adb_command, Throttle, bind, emit, ret.
  rewrite H. reflexivity.
Qed.

Lemma adb_command_rejected (c : command) (p : bool) (w : World) :
  throttle_admits MIN_TIME w = false ->
  adb_command c p w = Run (Ok None) w [Requested c p].
Proof.
  intros H. unfold adb_command, Throttle, bind, emit, ret.
  rewrite H. reflexivity.
Qed.

Lemma total_elapsed_nonneg (elapsed : action -> Z) (defs : list action) :
  (forall m, 0 <= elapsed m) -> 0 <= total_elapsed elapsed defs.
Proof.
  intros Hpos. induction defs as [| x l IH]; cbn; [lia |].
  specialize (Hpos x). fold (total_elapsed elapsed l). lia.
Qed.

(** Decorators that run inside the interval of an earlier one all get
    [None]. *)
Lemma class_body_inside_interval (elapsed : action -> Z) (defs : list action) :
  forall (cls : methods) (w : World) (t : Z),
    last_run w = Some t ->
    (forall m, 0 <= elapsed m) ->
    utcnow w + total_elapsed elapsed defs - t <= MIN_TIME ->
    exists w' ev,
      class_body defs elapsed cls w =
      Run (Ok (fold_left (fun c m => bind_name m None c) defs cls)) w' ev.
Proof.
  induction defs as [| m rest IH]; intros cls w t Hlast Hpos Hsum.
  - exists w, []. reflexivity.
  - rewrite class_body_cons.
    cbn [fold_left total_elapsed fold_right] in *.
    fold (total_elapsed elapsed rest) in Hsum.
    pose proof (total_elapsed_nonneg elapsed rest Hpos) as Hrest.
    assert (Hskip : throttle_admits MIN_TIME (advance (elapsed m) w) = false).
    { unfold throttle_admits, advance. cbn [utcnow last_run]. rewrite Hlast.
      rewrite Z.gtb_ltb. apply Z.ltb_ge. lia. }
    rewrite (adb_command_rejected _ _ _ Hskip).
    destruct (IH (bind_name m None cls) (advance (elapsed m) w) t)
      as (w' & ev & Hrun).
    + exact Hlast.
    + exact Hpos.
    + unfold advance. cbn [utcnow]. lia.
    + rewrite Hrun. eauto.
Qed.

(** X10.  When the class body is imported with a fresh throttle and all its
    decorators run within 10 ms of the first one, only [turn_on] is bound to
    a guard: the ten other names are bound to [None], and calling any of
    them raises [TypeError] without running anything. *)
Theorem fast_import_binds_only_turn_on (elapsed : action -> Z) (wc : World)
    (m : action) (env : Env) (args : list pyval) (w : World) :
  last_run wc = None ->
  (forall m, 0 <= elapsed m) ->
  total_elapsed elapsed (tl decorated) <= MIN_TIME ->
  m <> turn_on ->
  FireTVDevice_class elapsed wc turn_on <> None /\
  FireTVDevice_class elapsed wc m = None /\
  invoke (FireTVDevice_class elapsed wc) m env args w =
    Run (Raise type_error) w [].
Proof.
  intros Hfresh Hpos Hsum Hm.
  assert (Hcls : FireTVDevice_class elapsed wc =
    fold_left (fun c m => bind_name m None c) (tl decorated)
      (bind_name turn_on (Some (_adb_command (Def turn_on) false))
         (fun _ => None))).
  { unfold FireTVDevice_class. unfold decorated at 1.
    rewrite class_body_cons.
    assert (Hopen : throttle_admits MIN_TIME (advance (elapsed turn_on) wc) = true).
    { unfold throttle_admits, advance. cbn [last_run]. rewrite Hfresh. reflexivity. }
    rewrite (adb_command_admitted _ _ _ Hopen).
    destruct (class_body_inside_interval elapsed (tl decorated)
                (bind_name turn_on (Some (_adb_command (Def turn_on) false))
                   (fun _ => None))
                (mark_run (advance (elapsed turn_on) wc))
                (utcnow wc + elapsed turn_on))
      as (w' & ev & Hrun).
    - reflexivity.
    - exact Hpos.
    - cbn [mark_run advance utcnow]. lia.
    - change (tl decorated) with
        [turn_off; media_play; media_pause; media_play_pause; media_stop;
         volume_up; volume_down; media_previous_track; media_next_track;
         select_source] in Hrun.
      rewrite Hrun. reflexivity. }
  rewrite Hcls. unfold invoke.
  destruct m; try (exfalso; apply Hm; reflexivity);
    cbn; repeat split; discriminate.
Qed.

Lemma fast_import_binds_only_turn_on_witness :
  FireTVDevice_class Sample.fast_import
    (Sample.fresh (Sample.device true true None)) turn_on <> None /\
  FireTVDevice_class Sample.fast_import
    (Sample.fresh (Sample.device true true None)) select_source = None /\
  invoke (FireTVDevice_class Sample.fast_import
            (Sample.fresh (Sample.device true true None)))
    select_source
    (Sample.answers Sample.yes Sample.yes Sample.no_apps
       (Sample.app Sample.netflix) Sample.yes)
    [VStr (str "!com.foo")]
    (Sample.fresh (Sample.device true true (Some (AdbCommands 1)))) =
  Run (Raise type_error)
    (Sample.fresh (Sample.device true true (Some (AdbCommands 1)))) [].
Proof.
  apply (fast_import_binds_only_turn_on Sample.fast_import
           (Sample.fresh (Sample.device true true None)) select_source).
  - reflexivity.
  - intros m. unfold Sample.fast_import. lia.
  - vm_compute. discriminate.
  - discriminate.
Defined.

(** Decorators that each run more than 10 ms after the one before are all
    admitted. *)
Lemma class_body_spaced (elapsed : action -> Z) (defs : list action) :
  (forall m, MIN_TIME < elapsed m) ->
  forall (cls : methods) (w : World),
    clock_sane w ->
    exists w' ev,
      class_body defs elapsed cls w =
      Run (Ok (fold_left
                 (fun c m => bind_name m (Some (_adb_command (Def m) false)) c)
                 defs cls)) w' ev.
Proof.
  intros Hgap.
  induction defs as [| m rest IH]; intros cls w Hsane.
  - exists w, []. reflexivity.
  - rewrite class_body_cons. cbn [fold_left].
    assert (Hopen : throttle_admits MIN_TIME (advance (elapsed m) w) = true).
    { unfold throttle_admits, advance, clock_sane in *. cbn [utcnow last_run].
      destruct (last_run w) as [t |]; [| reflexivity].
      rewrite Z.gtb_ltb. apply Z.ltb_lt. specialize (Hgap m). lia. }
    rewrite (adb_command_admitted _ _ _ Hopen).
    destruct (IH (bind_name m (Some (_adb_command (Def m) false)) cls)
                (mark_run (advance (elapsed m) w))) as (w' & ev & Hrun).
    + unfold clock_sane, mark_run. cbn [last_run utcnow]. lia.
    + rewrite Hrun. eauto.
Qed.

(** X11.  When every decorator of the class body runs more than 10 ms after the
    one before, every decorated name is bound to the guard of its body. *)
Theorem spaced_import_binds_every_method (elapsed : action -> Z) (wc : World)
    (m : action) :
  clock_sane wc ->
  (forall m, MIN_TIME < elapsed m) ->
  FireTVDevice_class elapsed wc m = Some (_adb_command (Def m) false).
Proof.
  intros Hsane Hgap.
  destruct (class_body_spaced elapsed decorated Hgap (fun _ => None) wc Hsane)
    as (w' & ev & Hrun).
  unfold FireTVDevice_class. rewrite Hrun. cbn [result].
  destruct m; reflexivity.
Qed.

Lemma spaced_import_binds_every_method_witness :
  FireTVDevice_class Sample.slow_import
    (Sample.fresh (Sample.device true true None)) select_source =
  Some (_adb_command (Def select_source) false).
Proof.
  apply (spaced_import_binds_every_method Sample.slow_import
           (Sample.fresh (Sample.device true true None)) select_source).
  - exact I.
  - intros m. unfold Sample.slow_import, MIN_TIME. lia.
Defined.

(** X7.  Invoking an action never goes through the throttle: no request to
    [adb_command] is made, the clock and the throttle slot are as before.
    So a bound action called again at once runs its operation again. *)
Theorem actions_are_not_throttled (elapsed : action -> Z) (wc : World)
    (m : action) (env1 env2 : Env) (args : list pyval) (w : World) :
  let cls := FireTVDevice_class elapsed wc in
  let r1 := invoke cls m env1 args w in
  let r2 := invoke cls m env2 args (world r1) in
  requests (events r1) = [] /\
  utcnow (world r1) = utcnow w /\
  last_run (world r1) = last_run w /\
  invoked (events r2) = invoked (events r1).
Proof.
  cbv zeta. unfold invoke.
  destruct (FireTVDevice_class_well_bound elapsed wc m) as [-> | ->];
    cbn [call].
  - cbn. auto.
  - destruct (_adb_command_clock (Def m) false env1 args w) as [Hnow Hlast].
    split; [| split; [exact Hnow | split; [exact Hlast |]]].
    + unfold _adb_command, try_except, run_command, py_apply, def,
        def_select_source, firetv, extern, bind, emit, modify, ret, raise.
      destruct m, args as [| x [| y l]]; cbn [result world events];
        repeat branch_goal; reflexivity.
    + generalize (world (_adb_command (Def m) false env1 args w)). intros w1.
      unfold _adb_command, try_except, run_command, py_apply, def,
        def_select_source, firetv, extern, bind, emit, modify, ret, raise.
      destruct m, args as [| x [| y l]]; cbn [result world events];
        repeat branch_goal; reflexivity.
Qed.

(* ===================================================================== *)
(** ** More on the polling cycle *)
(* ===================================================================== *)





Ltac plan_flags :=
  repeat match goal with
         | H : _firetv_adb _ = _ |- _ => rewrite H
         | H : _get_sources _ = _ |- _ => rewrite H
         | H : _get_source _ = _ |- _ => rewrite H
         end.

(** X13.  The probes of a cycle are requested in the order of the source and each
    at most once: whatever the environment answers, the requests of a cycle
    are a prefix of the probe plan of the device, and the cycle never
    requests anything before looking at the handle. *)
Theorem probes_follow_the_plan (env : Env) (w : World) :
  exists rest,
    probe_plan (self w) = requests (events (async_update env w)) ++ rest.
Proof.
  cycle_of env w E; unfold probe_plan; plan_flags; cbn;
    eexists; reflexivity.
Qed.

(** What a cycle does to the connection handle.  A cycle that found a
    handle keeps it when it logged no error and leaves [None] when it logged
    one; it never replaces a handle.  A cycle that found none leaves [None]
    or the handle [connect] came back with. *)
Lemma cycle_handle (env : Env) (w : World) :
  let r := async_update env w in
  match _firetv_adb (self w) with
  | Some h =>
      _firetv_adb (self (world r)) =
        if (errors_logged (events r) =? 0)%nat then Some h else None
  | None =>
      _firetv_adb (self (world r)) = None \/
      (_firetv_adb (self (world r)) = adb_after_connect env /\
       errors_logged (events r) = 0%nat)
  end.
Proof.
  cycle_of env w E; cbn; plan_flags; auto.
Qed.

(** X14.  A cycle that found a connection handle keeps that very handle when it
    logged no error and leaves [None] when it logged one: it never installs
    or replaces a handle. *)
Theorem cycle_keeps_or_drops_handle (env : Env) (w : World) (h : Handle) :
  _firetv_adb (self w) = Some h ->
  let r := async_update env w in
  _firetv_adb (self (world r)) =
    if (errors_logged (events r) =? 0)%nat then Some h else None.
Proof.
  intros Hadb. pose proof (cycle_handle env w) as H. cbv zeta in H.
  rewrite Hadb in H. exact H.
Qed.

Lemma cycle_keeps_or_drops_handle_witness :
  _firetv_adb (self (world (async_update
     (Sample.answers Sample.yes Sample.yes Sample.no_apps
        (Raises Sample.broken_pipe) Sample.yes)
     (Sample.fresh (Sample.device true true (Some (AdbCommands 1))))))) = None.
Proof.
  apply (cycle_keeps_or_drops_handle
           (Sample.answers Sample.yes Sample.yes Sample.no_apps
              (Raises Sample.broken_pipe) Sample.yes)
           (Sample.fresh (Sample.device true true (Some (AdbCommands 1))))
           (AdbCommands 1)).
  reflexivity.
Defined.

(** The disconnected cycle, for use below. *)
Lemma reconnect_cycle (env : Env) (w : World) :
  _firetv_adb (self w) = None ->
  _state (self (world (async_update env w))) = STATE_UNKNOWN /\
  requests (events (async_update env w)) = [Unbound_connect].
Proof.
  intros Hadb. cycle_of env w E; cbn; auto.
Qed.

(** X15.  A recognized fault anywhere in a cycle sends the next cycle to the
    reconnect branch: when a cycle on a connected device logged an error,
    the cycle after it, whatever its environment, reports Unknown and
    requests nothing but [connect]. *)
Theorem fault_then_reconnect (env1 env2 : Env) (w : World) (h : Handle) :
  _firetv_adb (self w) = Some h ->
  errors_logged (events (async_update env1 w)) <> 0%nat ->
  let r2 := async_update env2 (world (async_update env1 w)) in
  state (self (world r2)) = STATE_UNKNOWN /\
  requests (events r2) = [Unbound_connect].
Proof.
  intros Hadb Herr. cbv zeta. apply reconnect_cycle.
  pose proof (cycle_handle env1 w) as H. cbv zeta in H.
  rewrite Hadb in H. rewrite H.
  destruct (Nat.eqb_spec (errors_logged (events (async_update env1 w))) 0);
    [contradiction | reflexivity].
Qed.

Lemma fault_then_reconnect_witness :
  let env := Sample.answers Sample.yes (Raises Sample.broken_pipe) Sample.no_apps
               (Sample.app Sample.netflix) Sample.yes in
  let w := Sample.fresh (Sample.device true true (Some (AdbCommands 1))) in
  let r2 := async_update env (world (async_update env w)) in
  state (self (world r2)) = STATE_UNKNOWN /\
  requests (events r2) = [Unbound_connect].
Proof.
  apply (fault_then_reconnect
           (Sample.answers Sample.yes (Raises Sample.broken_pipe) Sample.no_apps
              (Sample.app Sample.netflix) Sample.yes)
           (Sample.answers Sample.yes (Raises Sample.broken_pipe) Sample.no_apps
              (Sample.app Sample.netflix) Sample.yes)
           (Sample.fresh (Sample.device true true (Some (AdbCommands 1))))
           (AdbCommands 1)).
  - reflexivity.
  - vm_compute. discriminate.
Defined.

(** X16.  The state a cycle on a connected device leaves: when the cycle runs to
    its end the state is one of Off, Idle, Standby, Playing and, only if the
    current app is fetched, Paused, never Unknown; when the cycle is cut
    short by an exception the state is the one before the cycle. *)
Theorem connected_cycle_states (env : Env) (w : World) (h : Handle) :
  _firetv_adb (self w) = Some h ->
  let r := async_update env w in
  (result r = Ok tt ->
   In (state (self (world r))) (connected_states (_get_source (self w))))
  /\
  (forall e, result r = Raise e -> state (self (world r)) = state (self w)).
Proof.
  intros Hadb. cycle_of env w E; unfold connected_states, state; plan_flags;
    cbn; split; intros; try discriminate; auto 7.
Qed.

Lemma connected_cycle_states_witness :
  let r := async_update
             (Sample.answers Sample.yes Sample.yes Sample.no_apps
                (Sample.app Sample.netflix) (Raises Sample.timeout))
             (Sample.fresh (Sample.device true true (Some (AdbCommands 1)))) in
  (result r = Ok tt -> In (state (self (world r))) (connected_states true))
  /\
  (forall e, result r = Raise e -> state (self (world r)) = STATE_UNKNOWN).
Proof.
  apply (connected_cycle_states
           (Sample.answers Sample.yes Sample.yes Sample.no_apps
              (Sample.app Sample.netflix) (Raises Sample.timeout))
           (Sample.fresh (Sample.device true true (Some (AdbCommands 1))))
           (AdbCommands 1)).
  reflexivity.
Defined.

(** With the current app not fetched, a cycle never leaves Paused behind. *)
Lemma async_update_never_paused (env : Env) (w : World) :
  _get_source (self w) = false ->
  _state (self w) <> STATE_PAUSED ->
  _get_source (self (world (async_update env w))) = false /\
  _state (self (world (async_update env w))) <> STATE_PAUSED.
Proof.
  intros Hsrc Hst. cycle_of env w E; cbn; split; auto; discriminate.
Qed.

(** X17.  A device constructed with the current-app toggle off never reports
    Paused: after construction and after any sequence of polling cycles and
    actions its state is one of Unknown, Off, Idle, Standby and Playing. *)
Theorem never_paused_without_current_app (host name adbkey : pystr)
    (get_sources : bool) (adb : option Handle)
    (elapsed : action -> Z) (wc : World) (now : Z) (last : option Z)
    (history : list step) :
  In (state (self (do_steps (FireTVDevice_class elapsed wc) history
                     {| self := __init__ host name adbkey false get_sources adb;
                        utcnow := now; last_run := last |})))
     [STATE_UNKNOWN; STATE_OFF; STATE_IDLE; STATE_STANDBY; STATE_PLAYING].
Proof.
  unfold state, do_steps.
  set (cls := FireTVDevice_class elapsed wc).
  assert (Hstep : forall s w,
            _get_source (self w) = false /\ _state (self w) <> STATE_PAUSED ->
            _get_source (self (do_step cls s w)) = false /\
            _state (self (do_step cls s w)) <> STATE_PAUSED).
  { intros s w [Hsrc Hst]. destruct s as [env | m env args | d]; cbn [do_step].
    - apply async_update_never_paused; assumption.
    - destruct (invoke_frame cls m env args w
                  (FireTVDevice_class_well_bound elapsed wc)) as [H | H];
        rewrite H; split; assumption.
    - split; assumption. }
  assert (Hinv : forall l w,
            _get_source (self w) = false /\ _state (self w) <> STATE_PAUSED ->
            _state (self (fold_left (fun w s => do_step cls s w) l w))
              <> STATE_PAUSED).
  { induction l as [| s l IH]; intros w Hw; cbn [fold_left].
    - apply Hw.
    - apply IH, Hstep, Hw. }
  match goal with
  | |- In (_state (self ?W)) _ =>
      assert (Hne : _state (self W) <> STATE_PAUSED)
        by (apply Hinv; cbn; split; [reflexivity | discriminate]);
      destruct (_state (self W)); cbn; auto 7; contradiction
  end.
Qed.

(** With the running apps not fetched, a cycle keeps the single-element
    shape of the source list, also when it is cut short. *)
Lemma async_update_single_source (env : Env) (w : World) :
  _get_sources (self w) = false ->
  single_source (self w) ->
  _get_sources (self (world (async_update env w))) = false /\
  single_source (self (world (async_update env w))).
Proof.
  intros Hall Hone. unfold single_source in *.
  cycle_of env w E; cbn; split; auto.
Qed.

(** X18.  A device constructed with the running-apps toggle off keeps the
    single-element shape through every history: after construction and after
    any sequence of polling cycles and actions, complete or cut short, the
    source list is absent or is exactly the one-element list of the current
    app, which is then truthy. *)
Theorem single_source_through_history (host name adbkey : pystr)
    (get_source : bool) (adb : option Handle)
    (elapsed : action -> Z) (wc : World) (now : Z) (last : option Z)
    (history : list step) :
  single_source
    (self (do_steps (FireTVDevice_class elapsed wc) history
             {| self := __init__ host name adbkey get_source false adb;
                utcnow := now; last_run := last |})).
Proof.
  unfold do_steps.
  set (cls := FireTVDevice_class elapsed wc).
  assert (Hstep : forall s w,
            _get_sources (self w) = false /\ single_source (self w) ->
            _get_sources (self (do_step cls s w)) = false /\
            single_source (self (do_step cls s w))).
  { intros s w [Hall Hone]. destruct s as [env | m env args | d]; cbn [do_step].
    - apply async_update_single_source; assumption.
    - destruct (invoke_frame cls m env args w
                  (FireTVDevice_class_well_bound elapsed wc)) as [H | H];
        rewrite H; split; assumption.
    - split; assumption. }
  assert (Hinv : forall l w,
            _get_sources (self w) = false /\ single_source (self w) ->
            single_source (self (fold_left (fun w s => do_step cls s w) l w))).
  { induction l as [| s l IH]; intros w Hw; cbn [fold_left].
    - apply Hw.
    - apply IH, Hstep, Hw. }
  apply Hinv. split; [reflexivity | left; reflexivity].
Qed.

(** X19.  With the running apps fetched, the source list is what [running_apps]
    came back with, [None] after a recognized fault: the current app read
    later in the cycle does not touch it, and it stays also when a later
    probe cuts the cycle short. *)
Theorem running_apps_pass_through (env : Env) (w : World) (apps : pyval) :
  _get_sources (self w) = true ->
  reads (events (async_update env w)) Unbound_running_apps apps ->
  source_list (self (world (async_update env w))) = apps.
Proof.
  intros Hall. cycle_of env w E; finish.
Qed.

Lemma running_apps_pass_through_witness :
  source_list (self (world (async_update
     (Sample.answers Sample.yes Sample.yes
        (Returns (VList [VStr Sample.netflix; VStr PACKAGE_SETTINGS]))
        (Sample.app Sample.netflix) Sample.yes)
     (Sample.fresh (Sample.device true true (Some (AdbCommands 1)))))))
  = VList [VStr Sample.netflix; VStr PACKAGE_SETTINGS].
Proof.
  apply (running_apps_pass_through
           (Sample.answers Sample.yes Sample.yes
              (Returns (VList [VStr Sample.netflix; VStr PACKAGE_SETTINGS]))
              (Sample.app Sample.netflix) Sample.yes)
           (Sample.fresh (Sample.device true true (Some (AdbCommands 1))))).
  - reflexivity.
  - vm_compute. left. reflexivity.
Defined.

(** X20.  What the current-app read becomes: the source is the ['package'] entry
    of a dict that has one and the value itself otherwise, whatever the
    toggle of the running apps; a dict without that key and a plain string
    are stored as they are. *)
Theorem current_app_extraction (env : Env) (w : World) (c : pyval) :
  reads (events (async_update env w)) (Name current_app) c ->
  source (self (world (async_update env w))) = package_of c /\
  (forall d, c = VDict d -> dict_get d (str "package") = None ->
             source (self (world (async_update env w))) = c) /\
  (forall d v, c = VDict d -> dict_get d (str "package") = Some v ->
               source (self (world (async_update env w))) = v) /\
  (forall s, c = VStr s -> source (self (world (async_update env w))) = c).
Proof.
  intros Hread.
  assert (Hsrc : source (self (world (async_update env w))) = package_of c).
  { revert Hread. cycle_of env w E; finish. }
  rewrite Hsrc. split; [reflexivity |].
  repeat split; intros; subst c; unfold package_of;
    try match goal with H : dict_get _ _ = _ |- _ => rewrite H end;
    reflexivity.
Qed.

Lemma current_app_extraction_witness :
  source (self (world (async_update
     (Sample.answers Sample.yes Sample.yes Sample.no_apps
        (Returns (VDict [(VStr (str "pid"), VInt 7)])) Sample.yes)
     (Sample.fresh (Sample.device true true (Some (AdbCommands 1)))))))
  = VDict [(VStr (str "pid"), VInt 7)].
Proof.
  refine (proj1 (proj2 (current_app_extraction
           (Sample.answers Sample.yes Sample.yes Sample.no_apps
              (Returns (VDict [(VStr (str "pid"), VInt 7)])) Sample.yes)
           (Sample.fresh (Sample.device true true (Some (AdbCommands 1))))
           (VDict [(VStr (str "pid"), VInt 7)]) _))
           [(VStr (str "pid"), VInt 7)] eq_refl eq_refl).
  vm_compute. left. reflexivity.
Defined.

(** X21.  How long a cycle sleeps: a cycle that runs to its end has slept at
    least once per request it made (once more when the launcher branch
    skipped the wake lock): between 100 ms and 500 ms in all. *)
Theorem cycle_duration (env : Env) (w : World) :
  let r := async_update env w in
  result r = Ok tt ->
  SLEEP_TIME * Z.of_nat (List.length (requests (events r)))
    <= utcnow (world r) - utcnow w <= 5 * SLEEP_TIME /\
  SLEEP_TIME <= utcnow (world r) - utcnow w.
Proof.
  cycle_of env w E; cbn; unfold SLEEP_TIME; intros; try discriminate; lia.
Qed.

Lemma cycle_duration_witness :
  let r := async_update
             (Sample.answers Sample.yes Sample.yes Sample.no_apps
                (Sample.app Sample.netflix) Sample.yes)
             (Sample.fresh (Sample.device true true (Some (AdbCommands 1)))) in
  SLEEP_TIME * Z.of_nat (List.length (requests (events r)))
    <= utcnow (world r) - 0 <= 5 * SLEEP_TIME /\
  SLEEP_TIME <= utcnow (world r) - 0.
Proof.
  apply (cycle_duration
           (Sample.answers Sample.yes Sample.yes Sample.no_apps
              (Sample.app Sample.netflix) Sample.yes)
           (Sample.fresh (Sample.device true true (Some (AdbCommands 1))))).
  reflexivity.
Defined.

(** X22.  The budget of a cycle: it never logs more errors than operations
    it ran, never runs more operations than it requested from the gate, and
    makes at least one and at most five requests. *)
Theorem cycle_error_budget (env : Env) (w : World) :
  let r := async_update env w in
  (errors_logged (events r) <= List.length (invoked (events r)))%nat /\
  (List.length (invoked (events r)) <= List.length (requests (events r)))%nat /\
  (1 <= List.length (requests (events r)) <= 5)%nat.
Proof.
  cycle_of env w E; cbn; lia.
Qed.

(* ===================================================================== *)
(** ** Platform setup *)
(* ===================================================================== *)

(** X23.  Setup adds a device exactly when the constructed device holds a
    connection handle: then it adds that one device, logs one info line,
    succeeds and never looks at the key files; in every other case it adds
    nothing. *)
Theorem setup_adds_connected_device_only (env : SetupEnv) (config : Config) :
  let run := setup_platform env config in
  match FireTV env (host_of config) (CONF_ADBKEY config) with
  | Built (Some h) =>
      fst run = Done /\
      added (snd run) =
        [__init__ (host_of config) (CONF_NAME config) (CONF_ADBKEY config)
           (CONF_GET_SOURCE config) (CONF_GET_SOURCES config) (Some h)] /\
      touched (snd run) = [] /\
      log_lines (snd run) = 1%nat
  | _ => added (snd run) = []
  end.
Proof.
  cbv zeta. unfold setup_platform, host_of, troubleshoot_adbkey.
  destruct (FireTV env _ (CONF_ADBKEY config)) as [[h |] | e]; cbn.
  - auto.
  - destruct (CONF_ADBKEY config) as [| c k]; [reflexivity |].
    destruct (os_path_exists env (c :: k)); cbn; [| reflexivity].
    destruct (os_path_exists env (c :: k ++ _)); cbn; [| reflexivity].
    destruct (open_raises env (c :: k)); [reflexivity |].
    destruct (open_raises env (c :: k ++ _)); reflexivity.
  - reflexivity.
Qed.

(** X24.  When the device cannot be reached and a key is configured, a missing
    key file fails setup with [FileNotFoundError]: for the private key
    first, without looking at the public key, and for the public key
    [adbkey + ".pub"] when only that one is missing.  Nothing is added. *)
Theorem setup_reports_missing_key (env : SetupEnv) (config : Config) :
  FireTV env (host_of config) (CONF_ADBKEY config) = Built None ->
  CONF_ADBKEY config <> [] ->
  let run := setup_platform env config in
  let adbkey := CONF_ADBKEY config in
  (os_path_exists env adbkey = false ->
   fst run = FileNotFoundError
               (str "ADB private key " ++ adbkey ++ str " does not exist") /\
   touched (snd run) = [adbkey] /\
   added (snd run) = [])
  /\
  (os_path_exists env adbkey = true ->
   os_path_exists env (adbkey ++ str ".pub") = false ->
   fst run = FileNotFoundError
               (str "ADB public key " ++ (adbkey ++ str ".pub")
                  ++ str " does not exist") /\
   touched (snd run) = [adbkey; adbkey ++ str ".pub"] /\
   added (snd run) = []).
Proof.
  intros Hbuilt Hkey. cbv zeta.
  unfold setup_platform. fold (host_of config). rewrite Hbuilt.
  cbn [_firetv_adb __init__].
  destruct (CONF_ADBKEY config) as [| c k] eqn:Ek; [contradiction |].
  unfold troubleshoot_adbkey.
  split.
  - intros H. rewrite H. cbn. auto.
  - intros H1 H2. rewrite H1, H2. cbn. auto.
Qed.

Lemma setup_reports_missing_key_witness :
  fst (setup_platform (SampleSetup.unreachable [])
         (SampleSetup.config SampleSetup.key))
  = FileNotFoundError (str "ADB private key /config/adbkey does not exist")
  /\
  fst (setup_platform (SampleSetup.unreachable [SampleSetup.key])
         (SampleSetup.config SampleSetup.key))
  = FileNotFoundError (str "ADB public key /config/adbkey.pub does not exist").
Proof.
  split.
  - apply (proj1 (setup_reports_missing_key (SampleSetup.unreachable [])
             (SampleSetup.config SampleSetup.key) eq_refl
             ltac:(discriminate))).
    reflexivity.
  - apply (proj2 (setup_reports_missing_key
             (SampleSetup.unreachable [SampleSetup.key])
             (SampleSetup.config SampleSetup.key) eq_refl
             ltac:(discriminate))).
    + reflexivity.
    + reflexivity.
Defined.

(** X25.  Setup looks at the file system only to explain a failed connection:
    when any file was checked or opened, the device came up without a handle
    and a key was configured, a warning was logged first, and nothing was
    added. *)
Theorem setup_touches_files_only_to_troubleshoot (env : SetupEnv)
    (config : Config) :
  touched (snd (setup_platform env config)) <> [] ->
  FireTV env (host_of config) (CONF_ADBKEY config) = Built None /\
  CONF_ADBKEY config <> [] /\
  added (snd (setup_platform env config)) = [] /\
  hd_error (snd (setup_platform env config)) =
    Some (Warned (host_of config)
            (str " using adbkey='" ++ CONF_ADBKEY config ++ str "'")).
Proof.
  unfold setup_platform. fold (host_of config).
  destruct (FireTV env (host_of config) (CONF_ADBKEY config)) as [[h |] | e];
    cbn [_firetv_adb __init__].
  - cbn. intros H. contradiction.
  - destruct (CONF_ADBKEY config) as [| c k] eqn:Ek.
    + cbn. intros H. contradiction.
    + intros _.
      destruct (troubleshoot_adbkey env (c :: k)) as [out ev] eqn:Et.
      cbn [snd hd_error]. repeat split; try discriminate.
      unfold troubleshoot_adbkey in Et.
      destruct (os_path_exists env (c :: k));
        [destruct (os_path_exists env ((c :: k) ++ str ".pub"));
         [destruct (open_raises env (c :: k));
          [| destruct (open_raises env ((c :: k) ++ str ".pub"))] |] |];
        cbn in Et; injection Et as <- <-; reflexivity.
  - cbn. intros H. contradiction.
Qed.

Lemma setup_touches_files_only_to_troubleshoot_witness :
  FireTV (SampleSetup.unreachable [SampleSetup.key])
    (host_of (SampleSetup.config SampleSetup.key)) SampleSetup.key = Built None /\
  SampleSetup.key <> [] /\
  added (snd (setup_platform (SampleSetup.unreachable [SampleSetup.key])
                (SampleSetup.config SampleSetup.key))) = [] /\
  hd_error (snd (setup_platform (SampleSetup.unreachable [SampleSetup.key])
                   (SampleSetup.config SampleSetup.key))) =
    Some (Warned (host_of (SampleSetup.config SampleSetup.key))
            (str " using adbkey='" ++ SampleSetup.key ++ str "'")).
Proof.
  apply (setup_touches_files_only_to_troubleshoot
           (SampleSetup.unreachable [SampleSetup.key])
           (SampleSetup.config SampleSetup.key)).
  vm_compute. discriminate.
Defined.

(** X26.  An unreachable device is given up quietly when nothing is wrong with
    the keys: with no key configured, or with both key files present and
    readable, setup returns normally after one warning and adds nothing; it
    does not try to connect again. *)
Theorem setup_gives_up_quietly (env : SetupEnv) (config : Config) :
  FireTV env (host_of config) (CONF_ADBKEY config) = Built None ->
  (CONF_ADBKEY config = [] \/
   (os_path_exists env (CONF_ADBKEY config) = true /\
    os_path_exists env (CONF_ADBKEY config ++ str ".pub") = true /\
    open_raises env (CONF_ADBKEY config) = None /\
    open_raises env (CONF_ADBKEY config ++ str ".pub") = None)) ->
  fst (setup_platform env config) = Done /\
  added (snd (setup_platform env config)) = [] /\
  log_lines (snd (setup_platform env config)) = 1%nat.
Proof.
  intros Hbuilt Hkeys.
  unfold setup_platform. fold (host_of config). rewrite Hbuilt.
  cbn [_firetv_adb __init__].
  destruct (CONF_ADBKEY config) as [| c k] eqn:Ek.
  - cbn. auto.
  - destruct Hkeys as [H | (H1 & H2 & H3 & H4)]; [discriminate H |].
    unfold troubleshoot_adbkey. rewrite H1, H2, H3, H4. cbn. auto.
Qed.

Lemma setup_gives_up_quietly_witness :
  fst (setup_platform
         (SampleSetup.unreachable
            [SampleSetup.key; SampleSetup.key ++ str ".pub"])
         (SampleSetup.config SampleSetup.key)) = Done /\
  added (snd (setup_platform
         (SampleSetup.unreachable
            [SampleSetup.key; SampleSetup.key ++ str ".pub"])
         (SampleSetup.config SampleSetup.key))) = [] /\
  log_lines (snd (setup_platform
         (SampleSetup.unreachable
            [SampleSetup.key; SampleSetup.key ++ str ".pub"])
         (SampleSetup.config SampleSetup.key))) = 1%nat.
Proof.
  apply (setup_gives_up_quietly
           (SampleSetup.unreachable
              [SampleSetup.key; SampleSetup.key ++ str ".pub"])
           (SampleSetup.config SampleSetup.key)).
  - reflexivity.
  - right. repeat split; reflexivity.
Defined.




(* ===================================================================== *)
(** ** Supported features *)
(* ===================================================================== *)

(** X28.  The feature bitset is made of the nine flags of the source and nothing
    else: each of the nine is contained in it, and every bit set in it is
    set in one of them, whatever values the component gives the flags. *)
Theorem supported_features_are_the_listed_flags (f : Flags) (d : FireTVDevice) :
  (forall flag, In flag (listed_flags f) ->
                Z.land (supported_features f d) flag = flag)
  /\
  (forall i, Z.testbit (supported_features f d) i = true ->
             exists flag, In flag (listed_flags f) /\ Z.testbit flag i = true).
Proof.
  unfold supported_features, SUPPORT_FIRETV, listed_flags. split.
  - intros flag Hin. apply Z.bits_inj'. intros i _.
    rewrite Z.land_spec, !Z.lor_spec.
    cbn [In] in Hin.
    repeat (destruct Hin as [<- | Hin];
            [match goal with
             | |- _ && ?b = ?b =>
                 destruct b; [| apply andb_false_r];
                 repeat (rewrite ?orb_true_r; cbn [orb andb]); reflexivity
             end |]).
    destruct Hin.
  - intros i H. rewrite !Z.lor_spec in H.
    repeat (apply orb_prop in H; destruct H as [H | H]);
      eexists; (split; [| exact H]); cbn [In]; tauto.
Qed.

Lemma supported_features_are_the_listed_flags_witness :
  let f := {| SUPPORT_PAUSE := 1; SUPPORT_TURN_ON := 128; SUPPORT_TURN_OFF := 256;
              SUPPORT_PREVIOUS_TRACK := 16; SUPPORT_NEXT_TRACK := 32;
              SUPPORT_SELECT_SOURCE := 2048; SUPPORT_STOP := 4096;
              SUPPORT_VOLUME_SET := 4; SUPPORT_PLAY := 16384 |} in
  Z.land (supported_features f (Sample.device true true None)) 2048 = 2048 /\
  exists flag, In flag (listed_flags f) /\ Z.testbit flag 14 = true.
Proof.
  cbv zeta. split.
  - apply (proj1 (supported_features_are_the_listed_flags
             {| SUPPORT_PAUSE := 1; SUPPORT_TURN_ON := 128; SUPPORT_TURN_OFF := 256;
                SUPPORT_PREVIOUS_TRACK := 16; SUPPORT_NEXT_TRACK := 32;
                SUPPORT_SELECT_SOURCE := 2048; SUPPORT_STOP := 4096;
                SUPPORT_VOLUME_SET := 4; SUPPORT_PLAY := 16384 |}
             (Sample.device true true None))).
    cbn. tauto.
  - apply (proj2 (supported_features_are_the_listed_flags
             {| SUPPORT_PAUSE := 1; SUPPORT_TURN_ON := 128; SUPPORT_TURN_OFF := 256;
                SUPPORT_PREVIOUS_TRACK := 16; SUPPORT_NEXT_TRACK := 32;
                SUPPORT_SELECT_SOURCE := 2048; SUPPORT_STOP := 4096;
                SUPPORT_VOLUME_SET := 4; SUPPORT_PLAY := 16384 |}
             (Sample.device true true None))).
    reflexivity.
Defined.
